(** * Static file servers of the game framework

    A shallow embedding of the two development servers of the repository,

      - [unused-files/root-files/simple-server.py]  (class [CORSRequestHandler])
      - [unused-files/scripts/server.py]            (class [CustomHTTPRequestHandler])

    Both scripts subclass [http.server.SimpleHTTPRequestHandler] and hand the
    subclass to [socketserver.TCPServer].  The methods the scripts override
    are embedded from the scripts; the methods they inherit and call are
    embedded from the modules the scripts import, CPython's
    [http/server.py], [socketserver.py], [mimetypes.py], [posixpath.py] and
    [urllib/parse.py] (as of CPython 3.11, on a POSIX host), so that a
    response is computed the way the running program computes it.

    Conventions.  A Python [str] is a [string] of bytes (exact for the
    ISO-8859-1 decoded request line and for ASCII file names).  Handler
    methods are computations in a state monad over the handler object
    [self].  Dictionaries are [gmap]s.  What the host decides (the clock,
    the file system, the MIME tables read at start-up, [repr], URL
    splitting) is a field of [platform] or an argument. *)

From Stdlib Require Import ZArith Ascii.
From stdpp Require Import base option list strings gmap pretty.

Local Open Scope Z_scope.
Local Open Scope stdpp_scope.

(** ** Python string methods *)

Module Str.

Definition chr_eqb (a b : ascii) : bool := Ascii.eqb a b.

(** [s.startswith(t)] *)
Fixpoint startswith (s t : string) : bool :=
  match t, s with
  | EmptyString, _ => true
  | String b t', String a s' => chr_eqb a b && startswith s' t'
  | String _ _, EmptyString => false
  end.

(** [s.endswith(t)] *)
Fixpoint endswith (s t : string) : bool :=
  if String.eqb s t then true
  else match s with
       | EmptyString => false
       | String _ s' => endswith s' t
       end.

(** [c in s] *)
Fixpoint contains (c : ascii) (s : string) : bool :=
  match s with
  | EmptyString => false
  | String a s' => chr_eqb a c || contains c s'
  end.

(** [s.split(c, 1)[0]]: the part before the first [c] *)
Fixpoint before (c : ascii) (s : string) : string :=
  match s with
  | EmptyString => EmptyString
  | String a s' => if chr_eqb a c then EmptyString else String a (before c s')
  end.

(** the part after the first [c], when there is one *)
Fixpoint after (c : ascii) (s : string) : option string :=
  match s with
  | EmptyString => None
  | String a s' => if chr_eqb a c then Some s' else after c s'
  end.

(** [s.split(c)] *)
Fixpoint split (c : ascii) (s : string) : list string :=
  match s with
  | EmptyString => [EmptyString]
  | String a s' =>
      if chr_eqb a c then EmptyString :: split c s'
      else match split c s' with
           | w :: ws => String a w :: ws
           | [] => [String a EmptyString]
           end
  end.

(** [sep.join(ws)] *)
Fixpoint join (sep : string) (ws : list string) : string :=
  match ws with
  | [] => EmptyString
  | [w] => w
  | w :: ws' => w +:+ sep +:+ join sep ws'
  end.

Definition lower_chr (a : ascii) : ascii :=
  let n := Ascii.N_of_ascii a in
  if ((65 <=? n) && (n <=? 90))%N then Ascii.ascii_of_N (n + 32) else a.

(** [s.lower()] on byte strings: only [A-Z] change *)
Fixpoint lower (s : string) : string :=
  match s with
  | EmptyString => EmptyString
  | String a s' => String (lower_chr a) (lower s')
  end.

(** [str.isspace] on the code points below 256 *)
Definition isspace (a : ascii) : bool :=
  let n := Ascii.N_of_ascii a in
  (((9 <=? n) && (n <=? 13)) || ((28 <=? n) && (n <=? 32))
   || (n =? 133) || (n =? 160))%N.

Fixpoint rev_onto (s acc : string) : string :=
  match s with
  | EmptyString => acc
  | String a s' => rev_onto s' (String a acc)
  end.

Fixpoint lstrip (s : string) : string :=
  match s with
  | EmptyString => EmptyString
  | String a s' => if isspace a then lstrip s' else s
  end.

(** [s.rstrip()] *)
Definition rstrip (s : string) : string :=
  rev_onto (lstrip (rev_onto s EmptyString)) EmptyString.

(** [s.rfind(c)], [None] for Python's [-1] *)
Fixpoint rfind (c : ascii) (s : string) : option nat :=
  match s with
  | EmptyString => None
  | String a s' =>
      match rfind c s' with
      | Some i => Some (S i)
      | None => if chr_eqb a c then Some 0%nat else None
      end
  end.

(** [s.find(c)] *)
Fixpoint find (c : ascii) (s : string) : option nat :=
  match s with
  | EmptyString => None
  | String a s' =>
      if chr_eqb a c then Some 0%nat
      else match find c s' with Some i => Some (S i) | None => None end
  end.

(** [s[:n]] and [s[n:]] *)
Fixpoint take (n : nat) (s : string) : string :=
  match n, s with
  | S n', String a s' => String a (take n' s')
  | _, _ => EmptyString
  end.

Fixpoint drop (n : nat) (s : string) : string :=
  match n, s with
  | S n', String _ s' => drop n' s'
  | _, _ => s
  end.

(** [s.replace(c, t)] for a one-character pattern *)
Fixpoint replace (c : ascii) (t s : string) : string :=
  match s with
  | EmptyString => EmptyString
  | String a s' =>
      if chr_eqb a c then t +:+ replace c t s' else String a (replace c t s')
  end.

(** [str(n)] for a non-negative integer *)
Definition of_nat (n : nat) : string := pretty n.
Definition of_N (n : N) : string := pretty n.

End Str.

(** ** [posixpath] *)

Module posixpath.

Definition sep : ascii := "/"%char.
Definition extsep : ascii := "."%char.
Definition curdir : string := ".".
Definition pardir : string := "..".

(** [posixpath.join(a, b)] *)
Definition join (a b : string) : string :=
  if Str.startswith b "/" then b
  else if String.eqb a "" || Str.endswith a "/" then a +:+ b
  else a +:+ "/" +:+ b.

(** [head != sep*len(head)] *)
Fixpoint all_sep (s : string) : bool :=
  match s with
  | EmptyString => true
  | String a s' => Str.chr_eqb a sep && all_sep s'
  end.

Fixpoint lstrip_sep (s : string) : string :=
  match s with
  | EmptyString => EmptyString
  | String a s' => if Str.chr_eqb a sep then lstrip_sep s' else s
  end.

Definition rstrip_sep (s : string) : string :=
  Str.rev_onto (lstrip_sep (Str.rev_onto s EmptyString)) EmptyString.

(** [posixpath.dirname(p)] *)
Definition dirname (p : string) : string :=
  let i := match Str.rfind sep p with Some k => S k | None => 0%nat end in
  let head := Str.take i p in
  if negb (String.eqb head "") && negb (all_sep head) then rstrip_sep head
  else head.

(** The search of [genericpath._splitext] for a character that is not a
    dot, among [p[filenameIndex:dotIndex]]. *)
Fixpoint has_non_dot (s : string) : bool :=
  match s with
  | EmptyString => false
  | String a s' => negb (Str.chr_eqb a extsep) || has_non_dot s'
  end.

(** [posixpath.splitext(p)] *)
Definition splitext (p : string) : string * string :=
  let filenameIndex :=
    match Str.rfind sep p with Some k => S k | None => 0%nat end in
  match Str.rfind extsep p with
  | Some dotIndex =>
      if (filenameIndex <=? dotIndex)%nat
         && has_non_dot (Str.take (dotIndex - filenameIndex)
                                  (Str.drop filenameIndex p))
      then (Str.take dotIndex p, Str.drop dotIndex p)
      else (p, EmptyString)
  | None => (p, EmptyString)
  end.

(** The loop of [posixpath.normpath] over the components; [new_comps] is
    kept with its last element first. *)
Fixpoint normpath_comps (initial_slashes : nat) (comps new_comps : list string)
  : list string :=
  match comps with
  | [] => new_comps
  | comp :: rest =>
      if String.eqb comp "" || String.eqb comp curdir then
        normpath_comps initial_slashes rest new_comps
      else if negb (String.eqb comp pardir)
              || ((initial_slashes =? 0)%nat
                  && match new_comps with [] => true | _ => false end)
              || match new_comps with
                 | top :: _ => String.eqb top pardir
                 | [] => false
                 end
      then normpath_comps initial_slashes rest (comp :: new_comps)
      else match new_comps with
           | _ :: popped => normpath_comps initial_slashes rest popped
           | [] => normpath_comps initial_slashes rest new_comps
           end
  end.

(** [posixpath.normpath(path)] *)
Definition normpath (path : string) : string :=
  if String.eqb path "" then curdir
  else
    let initial_slashes :=
      if Str.startswith path "/" then
        if Str.startswith path "//" && negb (Str.startswith path "///")
        then 2%nat else 1%nat
      else 0%nat in
    let comps := rev (normpath_comps initial_slashes (Str.split sep path) []) in
    let joined := Str.join "/" comps in
    let res :=
      match initial_slashes with
      | 0%nat => joined
      | 1%nat => "/" +:+ joined
      | _ => "//" +:+ joined
      end in
    if String.eqb res "" then curdir else res.

End posixpath.

(** ** [urllib.parse] *)

Module urllib.

Definition hexdig (a : ascii) : option N :=
  let n := Ascii.N_of_ascii a in
  if ((48 <=? n) && (n <=? 57))%N then Some (n - 48)%N
  else if ((65 <=? n) && (n <=? 70))%N then Some (n - 55)%N
  else if ((97 <=? n) && (n <=? 102))%N then Some (n - 87)%N
  else None.

(** [urllib.parse.unquote]: every [%xx] with two hexadecimal digits
    becomes the byte it names, any other [%] stays.  The decoded bytes
    stand for the text they encode. *)
Fixpoint unquote (s : string) : string :=
  match s with
  | EmptyString => EmptyString
  | String a s' =>
      if Str.chr_eqb a "%"%char then
        match s' with
        | String h (String l rest) =>
            match hexdig h, hexdig l with
            | Some x, Some y =>
                String (Ascii.ascii_of_N (16 * x + y)) (unquote rest)
            | _, _ => String a (unquote s')
            end
        | _ => String a (unquote s')
        end
      else String a (unquote s')
  end.

(** [urllib.parse._splittype] matches a non-empty run of characters other
    than slash and colon, followed by a colon, at the start of the URL;
    [scheme_end] is the index of that colon. *)
Fixpoint scheme_end (s : string) : option nat :=
  match s with
  | EmptyString => None
  | String a s' =>
      if Str.chr_eqb a "/"%char then None
      else if Str.chr_eqb a ":"%char then Some 0%nat
      else match scheme_end s' with Some i => Some (S i) | None => None end
  end.

Definition _splittype (url : string) : option string * string :=
  match scheme_end url with
  | Some (S i) => (Some (Str.lower (Str.take (S i) url)), Str.drop (S (S i)) url)
  | _ => (None, url)
  end.

(** The five parts [urlsplit] returns. *)
Record SplitResult := {
  scheme : string; netloc : string; path : string;
  query : string; fragment : string }.

End urllib.

(** ** [mimetypes] *)

Module mimetypes.

Definition suffix_map : gmap string string :=
  <[".svgz" := ".svg.gz"]> (<[".tgz" := ".tar.gz"]> (<[".taz" := ".tar.gz"]>
  (<[".tz" := ".tar.gz"]> (<[".tbz2" := ".tar.bz2"]>
  (<[".txz" := ".tar.xz"]> ∅))))).

Definition encodings_map : gmap string string :=
  <[".gz" := "gzip"]> (<[".Z" := "compress"]> (<[".bz2" := "bzip2"]>
  (<[".xz" := "xz"]> (<[".br" := "br"]> ∅)))).

(** [MimeTypes.add_type(type, ext)] on the strict table
    [types_map[True]], the only one [guess_type] reads when [strict]. *)
Definition add_type (type ext : string) (types_map : gmap string string)
  : gmap string string :=
  <[ext := type]> types_map.

(** The [while] loop of [guess_type] over [suffix_map].  With the table
    above a second round never happens ([suffix_loop_total]); [None] is
    the loop still running when the fuel is gone. *)
Fixpoint suffix_loop (fuel : nat) (base ext : string) : option (string * string) :=
  match suffix_map !! Str.lower ext with
  | None => Some (base, ext)
  | Some long =>
      match fuel with
      | O => None
      | S fuel' =>
          let '(base', ext') := posixpath.splitext (base +:+ long) in
          suffix_loop fuel' base' ext'
      end
  end.

(** The [data:] branch of [guess_type]. *)
Definition data_url_type (url : string) : option string :=
  match Str.find ","%char url with
  | None => None
  | Some comma =>
      let type :=
        match Str.find ";"%char (Str.take comma url) with
        | Some semi => Str.take semi url
        | None => Str.take comma url
        end in
      if Str.contains "="%char type || negb (Str.contains "/"%char type)
      then Some "text/plain" else Some type
  end.

(** [mimetypes.guess_type(url)[0]], with [strict=True] *)
Definition guess_type (types_map : gmap string string) (url : string)
  : option string :=
  let '(scheme, url) := urllib._splittype url in
  if bool_decide (scheme = Some "data") then data_url_type url
  else
    let '(base, ext) := posixpath.splitext url in
    match suffix_loop 1 base ext with
    | None => None
    | Some (base, ext) =>
        let ext :=
          match encodings_map !! ext with
          | Some _ => snd (posixpath.splitext base)
          | None => ext
          end in
        types_map !! Str.lower ext
    end.

End mimetypes.

(** ** The host *)

(** What [os.path.isdir], [os.path.isfile], [open], [os.fstat] and
    [os.listdir] see at a path. *)
Inductive node :=
| NoEntry
| Directory (entries : option (list string))   (* [None]: [os.listdir] raises [OSError] *)
| RegularFile (readable : bool) (content : string) (st_mtime : Z).

Definition filesystem := string → node.

Definition isdir (fs : filesystem) (p : string) : bool :=
  match fs p with Directory _ => true | _ => false end.

Definition isfile (fs : filesystem) (p : string) : bool :=
  match fs p with RegularFile _ _ _ => true | _ => false end.

(** [open(p, 'rb')] followed by [os.fstat]; [None] is [OSError]
    ([FileNotFoundError], [PermissionError], [IsADirectoryError], ...). *)
Definition open (fs : filesystem) (p : string) : option (string * Z) :=
  match fs p with
  | RegularFile true content mtime => Some (content, mtime)
  | _ => None
  end.

Definition listdir (fs : filesystem) (p : string) : option (list string) :=
  match fs p with Directory entries => entries | _ => None end.

Record platform := {
  version_string : string;                (* [server_version + ' ' + sys_version] *)
  date_time_string : option Z → string;   (* RFC 7231 date, of now when [None] *)
  log_date_time_string : string;
  address_string : string;                (* the client address *)
  getfilesystemencoding : string;
  repr : string → string;
  urlsplit : string → urllib.SplitResult;
  urlunsplit : urllib.SplitResult → string;
  (* the encoded HTML page of [list_directory], from [self.path], the
     directory and its sorted entries *)
  directory_page : string → string → list string → string;
}.

(** ** [http.server] *)

Inductive HTTPStatus :=
| OK | MOVED_PERMANENTLY | NOT_MODIFIED | BAD_REQUEST | NOT_FOUND
| REQUEST_URI_TOO_LONG | REQUEST_HEADER_FIELDS_TOO_LARGE
| NOT_IMPLEMENTED | HTTP_VERSION_NOT_SUPPORTED.

Definition value (s : HTTPStatus) : N :=
  match s with
  | OK => 200 | MOVED_PERMANENTLY => 301 | NOT_MODIFIED => 304
  | BAD_REQUEST => 400 | NOT_FOUND => 404 | REQUEST_URI_TOO_LONG => 414
  | REQUEST_HEADER_FIELDS_TOO_LARGE => 431 | NOT_IMPLEMENTED => 501
  | HTTP_VERSION_NOT_SUPPORTED => 505
  end%N.

(** [BaseHTTPRequestHandler.responses]: short and long message per code. *)
Definition responses (s : HTTPStatus) : string * string :=
  match s with
  | OK => ("OK", "Request fulfilled, document follows")
  | MOVED_PERMANENTLY =>
      ("Moved Permanently", "Object moved permanently -- see URI list")
  | NOT_MODIFIED => ("Not Modified", "Document has not changed since given time")
  | BAD_REQUEST => ("Bad Request", "Bad request syntax or unsupported method")
  | NOT_FOUND => ("Not Found", "Nothing matches the given URI")
  | REQUEST_URI_TOO_LONG => ("Request-URI Too Long", "URI is too long")
  | REQUEST_HEADER_FIELDS_TOO_LARGE =>
      ("Request Header Fields Too Large",
       "The server is unwilling to process the request because its header fields are too large")
  | NOT_IMPLEMENTED => ("Not Implemented", "Server does not support this operation")
  | HTTP_VERSION_NOT_SUPPORTED => ("HTTP Version Not Supported", "Cannot fulfill request")
  end.

(** What goes to the socket: the header block [flush_headers] writes in one
    piece, and body data. *)
Inductive line :=
| status_line (protocol : string) (code : N) (message : string)
| header_line (keyword val : string)
| blank_line.

Inductive chunk :=
| head (lines : list line)
| data (bytes : string).

(** The request as [parse_request] leaves it in the handler. *)
Module request.
Record t := {
  (* [None], which [parse_request] leaves in [command] when it fails, is
     the empty string: [command] is only ever compared with a method name *)
  command : string;
  path : string;
  request_version : string;
  requestline : string;
  (* [headers]: the time in a well-formed UTC [If-Modified-Since], and
     whether [If-None-Match] is there *)
  if_modified_since : option Z;
  if_none_match : bool;
}.
End request.

(** The handler object [self], with the part of [sys.stderr] it writes. *)
Record handler := {
  req : request.t;
  directory : string;
  _headers_buffer : list line;
  wfile : list chunk;
  close_connection : bool;
  stderr : list string;
}.

Definition M (A : Type) : Type := handler → A * handler.

Global Instance M_ret : MRet M := λ A x self, (x, self).
Global Instance M_bind : MBind M :=
  λ A B f m self, let '(a, self') := m self in f a self'.

Definition get : M handler := λ self, (self, self).
Definition modify (f : handler → handler) : M unit := λ self, (tt, f self).
Definition exec {A} (m : M A) (self : handler) : handler := snd (m self).

Definition buffer_append (l : line) : M unit :=
  modify (λ self,
    {| req := req self; directory := directory self;
       _headers_buffer := _headers_buffer self ++ [l];
       wfile := wfile self; close_connection := close_connection self;
       stderr := stderr self |}).

Definition wfile_write (c : chunk) : M unit :=
  modify (λ self,
    {| req := req self; directory := directory self;
       _headers_buffer := _headers_buffer self;
       wfile := wfile self ++ [c]; close_connection := close_connection self;
       stderr := stderr self |}).

Definition set_close_connection (b : bool) : M unit :=
  modify (λ self,
    {| req := req self; directory := directory self;
       _headers_buffer := _headers_buffer self;
       wfile := wfile self; close_connection := b;
       stderr := stderr self |}).

Definition stderr_write (s : string) : M unit :=
  modify (λ self,
    {| req := req self; directory := directory self;
       _headers_buffer := _headers_buffer self;
       wfile := wfile self; close_connection := close_connection self;
       stderr := stderr self ++ [s] |}).

Definition LF : string := String "010"%char EmptyString.
Definition DQ : string := String "034"%char EmptyString.

(** [format % args] for the conversions the handlers use, [%s], [%d] and
    [%r], the arguments already rendered by [str] or [repr]. *)
Fixpoint percent (format : string) (args : list string) : string :=
  match format with
  | EmptyString => EmptyString
  | String a rest =>
      if Str.chr_eqb a "%"%char then
        match rest with
        | String c rest' =>
            if Str.chr_eqb c "s"%char || Str.chr_eqb c "d"%char
               || Str.chr_eqb c "r"%char then
              match args with
              | x :: args' => x +:+ percent rest' args'
              | [] => percent rest' []
              end
            else String a (percent rest args)
        | EmptyString => String a EmptyString
        end
      else String a (percent rest args)
  end.

(** The methods a subclass of [SimpleHTTPRequestHandler] may override and
    the inherited code calls through [self]. *)
Module virtual.
Record handler_class := {
  end_headers : M unit;
  log_message : string → list string → M unit;
  guess_type : string → string;
  (* the [directory] keyword the class gives [__init__] *)
  init_directory : option string;
}.
End virtual.
Abbreviation handler_class := virtual.handler_class.

Module BaseHTTPRequestHandler.

Definition protocol_version : string := "HTTP/1.0".
Definition error_content_type : string := "text/html;charset=utf-8".

(** [error_message_format % {'code': ..., 'message': ..., 'explain': ...}] *)
Definition error_message_format (code message explain : string) : string :=
  "<!DOCTYPE HTML>" +:+ LF +:+
  "<html lang=" +:+ DQ +:+ "en" +:+ DQ +:+ ">" +:+ LF +:+
  "    <head>" +:+ LF +:+
  "        <meta charset=" +:+ DQ +:+ "utf-8" +:+ DQ +:+ ">" +:+ LF +:+
  "        <title>Error response</title>" +:+ LF +:+
  "    </head>" +:+ LF +:+
  "    <body>" +:+ LF +:+
  "        <h1>Error response</h1>" +:+ LF +:+
  "        <p>Error code: " +:+ code +:+ "</p>" +:+ LF +:+
  "        <p>Message: " +:+ message +:+ ".</p>" +:+ LF +:+
  "        <p>Error code explanation: " +:+ code +:+ " - " +:+ explain +:+ ".</p>" +:+ LF +:+
  "    </body>" +:+ LF +:+
  "</html>" +:+ LF.

(** [html.escape(s, quote=False)] *)
Definition html_escape (s : string) : string :=
  Str.replace ">"%char "&gt;"
    (Str.replace "<"%char "&lt;" (Str.replace "&"%char "&amp;" s)).

Definition send_response_only (code : HTTPStatus) (message : option string)
  : M unit :=
  self ← get;
  if bool_decide (request.request_version (req self) ≠ "HTTP/0.9") then
    buffer_append
      (status_line protocol_version (value code)
         (default (fst (responses code)) message))
  else mret tt.

Definition send_header (keyword val : string) : M unit :=
  self ← get;
  (if bool_decide (request.request_version (req self) ≠ "HTTP/0.9")
   then buffer_append (header_line keyword val) else mret tt);;
  if String.eqb (Str.lower keyword) "connection" then
    if String.eqb (Str.lower val) "close" then set_close_connection true
    else if String.eqb (Str.lower val) "keep-alive"
         then set_close_connection false
         else mret tt
  else mret tt.

Definition flush_headers : M unit :=
  self ← get;
  wfile_write (head (_headers_buffer self));;
  modify (λ self,
    {| req := req self; directory := directory self;
       _headers_buffer := [];
       wfile := wfile self; close_connection := close_connection self;
       stderr := stderr self |}).

Definition end_headers : M unit :=
  self ← get;
  if bool_decide (request.request_version (req self) ≠ "HTTP/0.9") then
    buffer_append blank_line;; flush_headers
  else mret tt.

(** [message.translate(self._control_char_table)] *)
Definition hex2 (n : N) : string :=
  let digit d := Ascii.ascii_of_N (if (d <? 10)%N then 48 + d else 87 + d) in
  String (digit (n / 16)%N) (String (digit (n mod 16)%N) EmptyString).

Fixpoint escape_control (s : string) : string :=
  match s with
  | EmptyString => EmptyString
  | String a s' =>
      let n := Ascii.N_of_ascii a in
      if ((n <? 32) || ((127 <=? n) && (n <? 160)))%N
      then "\x" +:+ hex2 n +:+ escape_control s'
      else if (n =? 92)%N then "\\" +:+ escape_control s'
      else String a (escape_control s')
  end.

Definition log_message (sys : platform) (format : string) (args : list string)
  : M unit :=
  let message := percent format args in
  stderr_write
    (percent "%s - - [%s] %s"
       [address_string sys; log_date_time_string sys; escape_control message]
     +:+ LF).

Section methods.
Context (cls : handler_class).

Definition log_request (code : string) (size : string) : M unit :=
  self ← get;
  virtual.log_message cls (DQ +:+ "%s" +:+ DQ +:+ " %s %s")
    [request.requestline (req self); code; size].

Definition log_error (format : string) (args : list string) : M unit :=
  virtual.log_message cls format args.

Definition send_response (sys : platform) (code : HTTPStatus)
    (message : option string) : M unit :=
  log_request (Str.of_N (value code)) "-";;
  send_response_only code message;;
  send_header "Server" (version_string sys);;
  send_header "Date" (date_time_string sys None).

Definition send_error (sys : platform) (code : HTTPStatus)
    (message explain : option string) : M unit :=
  let '(shortmsg, longmsg) := responses code in
  let message := default shortmsg message in
  let explain := default longmsg explain in
  log_error "code %d, message %s" [Str.of_N (value code); message];;
  send_response sys code (Some message);;
  send_header "Connection" "close";;
  let body :=
    if (200 <=? value code)%N
       && negb (bool_decide (value code ∈ [204; 205; 304]%N))
    then Some (error_message_format (Str.of_N (value code))
                 (html_escape message) (html_escape explain))
    else None in
  match body with
  | Some content =>
      send_header "Content-Type" error_content_type;;
      send_header "Content-Length" (Str.of_nat (String.length content))
  | None => mret tt
  end;;
  virtual.end_headers cls;;
  self ← get;
  match body with
  | Some content =>
      if bool_decide (request.command (req self) ≠ "HEAD")
         && negb (String.eqb content "")
      then wfile_write (data content) else mret tt
  | None => mret tt
  end.

End methods.

End BaseHTTPRequestHandler.

Module SimpleHTTPRequestHandler.
Import BaseHTTPRequestHandler.

Definition extensions_map : gmap string string :=
  <[".gz" := "application/gzip"]> (<[".Z" := "application/octet-stream"]>
  (<[".bz2" := "application/x-bzip2"]> (<[".xz" := "application/x-xz"]> ∅))).

(** [__init__(self, *args, directory=None, **kwargs)], for the request
    the connection brings. *)
Definition __init__ (directory : option string) (getcwd : string)
    (r : request.t) : handler :=
  {| req := r; directory := default getcwd directory;
     _headers_buffer := []; wfile := []; close_connection := true;
     stderr := [] |}.

Definition translate_path (directory path : string) : string :=
  let path := Str.before "?"%char path in
  let path := Str.before "#"%char path in
  let trailing_slash := Str.endswith (Str.rstrip path) "/" in
  let path := urllib.unquote path in
  let path := posixpath.normpath path in
  let words := Str.split "/"%char path in
  let words := filter (λ word, word ≠ "") words in
  let path :=
    foldl (λ path word,
             if negb (String.eqb (posixpath.dirname word) "")
                || String.eqb word posixpath.curdir
                || String.eqb word posixpath.pardir
             then path
             else posixpath.join path word)
          directory words in
  if trailing_slash then path +:+ "/" else path.

(** [guess_type(self, path)]; [types_map] is the strict table of the
    [mimetypes] module at the time of the call. *)
Definition guess_type (types_map : gmap string string) (path : string) : string :=
  let '(base, ext) := posixpath.splitext path in
  match extensions_map !! ext with
  | Some type => type
  | None =>
      match extensions_map !! Str.lower ext with
      | Some type => type
      | None =>
          match mimetypes.guess_type types_map path with
          | Some guess =>
              if String.eqb guess "" then "application/octet-stream" else guess
          | None => "application/octet-stream"
          end
      end
  end.

Section methods.
Context (cls : handler_class) (sys : platform) (fs : filesystem).

Definition list_directory (path : string) : M (option string) :=
  match listdir fs path with
  | None =>
      send_error cls sys NOT_FOUND (Some "No permission to list directory") None;;
      mret None
  | Some list =>
      self ← get;
      let encoded := directory_page sys (request.path (req self)) path list in
      send_response cls sys OK None;;
      send_header "Content-type"
        (percent "text/html; charset=%s" [getfilesystemencoding sys]);;
      send_header "Content-Length" (Str.of_nat (String.length encoded));;
      virtual.end_headers cls;;
      mret (Some encoded)
  end.

(** The second half of [send_head], from [ctype = self.guess_type(path)]
    on. *)
Definition send_file_head (path : string) : M (option string) :=
  self ← get;
  let ctype := virtual.guess_type cls path in
  if Str.endswith path "/" then
    send_error cls sys NOT_FOUND (Some "File not found") None;; mret None
  else
    match open fs path with
    | None =>
        send_error cls sys NOT_FOUND (Some "File not found") None;; mret None
    | Some (content, st_mtime) =>
        let not_modified :=
          match request.if_modified_since (req self) with
          | Some ims =>
              negb (request.if_none_match (req self)) && (st_mtime <=? ims)
          | None => false
          end in
        if not_modified then
          send_response cls sys NOT_MODIFIED None;;
          virtual.end_headers cls;;
          mret None
        else
          send_response cls sys OK None;;
          send_header "Content-type" ctype;;
          send_header "Content-Length" (Str.of_nat (String.length content));;
          send_header "Last-Modified" (date_time_string sys (Some st_mtime));;
          virtual.end_headers cls;;
          mret (Some content)
    end.

Definition send_head : M (option string) :=
  self ← get;
  let path := translate_path (directory self) (request.path (req self)) in
  if isdir fs path then
    let parts := urlsplit sys (request.path (req self)) in
    if negb (Str.endswith (urllib.path parts) "/") then
      send_response cls sys MOVED_PERMANENTLY None;;
      let new_parts :=
        {| urllib.scheme := urllib.scheme parts;
           urllib.netloc := urllib.netloc parts;
           urllib.path := urllib.path parts +:+ "/";
           urllib.query := urllib.query parts;
           urllib.fragment := urllib.fragment parts |} in
      send_header "Location" (urlunsplit sys new_parts);;
      send_header "Content-Length" "0";;
      virtual.end_headers cls;;
      mret None
    else
      match List.find (λ index, isfile fs (posixpath.join path index))
                      ["index.html"; "index.htm"] with
      | Some index => send_file_head (posixpath.join path index)
      | None => list_directory path
      end
  else send_file_head path.

(** [shutil.copyfileobj]: nothing is written for an empty file. *)
Definition copyfile (source : string) : M unit :=
  if String.eqb source "" then mret tt else wfile_write (data source).

Definition do_GET : M unit :=
  f ← send_head;
  match f with Some f => copyfile f | None => mret tt end.

Definition do_HEAD : M unit :=
  f ← send_head;
  mret tt.

End methods.

End SimpleHTTPRequestHandler.

(** What a connection brings, as [handle_one_request] tells the cases
    apart. *)
Inductive arrival :=
| nothing                       (* the peer closed, or sent a blank line *)
| line_too_long                 (* more than 65536 bytes of request line *)
| rejected (requestline request_version : string)
           (code : HTTPStatus) (message : string) (explain : option string)
                                (* [parse_request] called [send_error] *)
| parsed (r : request.t).

Definition request_of (a : arrival) : request.t :=
  match a with
  | parsed r => r
  | rejected requestline request_version _ _ _ =>
      {| request.command := ""; request.path := "";
         request.request_version := request_version;
         request.requestline := requestline;
         request.if_modified_since := None; request.if_none_match := false |}
  | _ =>
      {| request.command := ""; request.path := "";
         request.request_version := ""; request.requestline := "";
         request.if_modified_since := None; request.if_none_match := false |}
  end.

Section handle.
Context (cls : handler_class) (sys : platform) (fs : filesystem).

(** [BaseHTTPRequestHandler.handle_one_request] *)
Definition handle_one_request (a : arrival) : M unit :=
  match a with
  | nothing => set_close_connection true
  | line_too_long =>
      BaseHTTPRequestHandler.send_error cls sys REQUEST_URI_TOO_LONG None None
  | rejected _ _ code message explain =>
      BaseHTTPRequestHandler.send_error cls sys code (Some message) explain
  | parsed r =>
      if String.eqb (request.command r) "GET" then
        SimpleHTTPRequestHandler.do_GET cls sys fs
      else if String.eqb (request.command r) "HEAD" then
        SimpleHTTPRequestHandler.do_HEAD cls sys fs
      else
        BaseHTTPRequestHandler.send_error cls sys NOT_IMPLEMENTED
          (Some (percent "Unsupported method (%r)" [repr sys (request.command r)]))
          None
  end.

(** One connection: the class is instantiated and handles one request
    ([protocol_version] is HTTP/1.0, so [close_connection] stays set). *)
Definition handle (getcwd : string) (a : arrival) : handler :=
  exec (handle_one_request a)
       (SimpleHTTPRequestHandler.__init__ (virtual.init_directory cls) getcwd
          (request_of a)).

End handle.

(** ** The two handler classes of the repository *)

(** [simple-server.py] *)
Module CORSRequestHandler.

Definition end_headers : M unit :=
  BaseHTTPRequestHandler.send_header "Access-Control-Allow-Origin" "*";;
  BaseHTTPRequestHandler.send_header "Access-Control-Allow-Methods" "GET";;
  BaseHTTPRequestHandler.send_header "Cache-Control"
    "no-store, no-cache, must-revalidate";;
  BaseHTTPRequestHandler.end_headers.

Definition log_message (sys : platform) (format : string) (args : list string)
  : M unit :=
  stderr_write (log_date_time_string sys +:+ ": " +:+ percent format args +:+ LF).

Definition class (sys : platform) (types_map : gmap string string)
  : handler_class :=
  {| virtual.end_headers := end_headers;
     virtual.log_message := log_message sys;
     virtual.guess_type := SimpleHTTPRequestHandler.guess_type types_map;
     virtual.init_directory := None |}.

End CORSRequestHandler.

(** [scripts/server.py] *)
Module CustomHTTPRequestHandler.

Definition end_headers : M unit :=
  BaseHTTPRequestHandler.send_header "Access-Control-Allow-Origin" "*";;
  BaseHTTPRequestHandler.send_header "Access-Control-Allow-Methods" "GET";;
  BaseHTTPRequestHandler.send_header "Cache-Control"
    "no-store, no-cache, must-revalidate";;
  BaseHTTPRequestHandler.end_headers.

Definition guess_type (types_map : gmap string string) (path : string) : string :=
  if Str.endswith path ".js" then "application/javascript"
  else SimpleHTTPRequestHandler.guess_type types_map path.

Definition class (DIRECTORY : string) (sys : platform)
    (types_map : gmap string string) : handler_class :=
  {| virtual.end_headers := end_headers;
     virtual.log_message := BaseHTTPRequestHandler.log_message sys;
     virtual.guess_type := guess_type types_map;
     virtual.init_directory := Some DIRECTORY |}.

End CustomHTTPRequestHandler.

(** ** The process and the scripts *)

(** The exceptions that end [TCPServer(...)] or [serve_forever()]: an
    interrupt, or an instance of a subclass of [Exception] ([message] is
    what [str] gives for it). *)
Inductive exc :=
| KeyboardInterrupt
| Error (class_name message : string).

Record process := {
  cwd : string;
  (* the strict table of the [mimetypes] module: the host's tables,
     then what [add_type] put in *)
  types_map : gmap string string;
  sys_stdout : list string;
  sys_stderr : list string;
}.

(** How the interpreter ends: with an exit status, or re-raising SIGINT. *)
Inductive termination :=
| exited (status : Z)
| interrupted.

(** What happens to the process from outside. *)
Record events := {
  bind_error : option exc;      (* raised by [TCPServer(("", PORT), ...)] *)
  traffic : list arrival;       (* the connections accepted, in order *)
  stop : exc;                   (* what ends [serve_forever()] *)
}.

Record outcome := {
  final : process;
  replies : list (list chunk);   (* what each connection received *)
  ending : termination;
}.

Definition print (s : string) (p : process) : process :=
  {| cwd := cwd p; types_map := types_map p;
     sys_stdout := sys_stdout p ++ [s +:+ LF]; sys_stderr := sys_stderr p |}.

Definition stderr_lines (ls : list string) (p : process) : process :=
  {| cwd := cwd p; types_map := types_map p;
     sys_stdout := sys_stdout p; sys_stderr := sys_stderr p ++ ls |}.

Definition chdir (d : string) (p : process) : process :=
  {| cwd := d; types_map := types_map p;
     sys_stdout := sys_stdout p; sys_stderr := sys_stderr p |}.

Definition add_type (type ext : string) (p : process) : process :=
  {| cwd := cwd p; types_map := mimetypes.add_type type ext (types_map p);
     sys_stdout := sys_stdout p; sys_stderr := sys_stderr p |}.

(** [os.path.abspath] *)
Definition abspath (getcwd path : string) : string :=
  posixpath.normpath
    (if Str.startswith path "/" then path else posixpath.join getcwd path).

(** An exception nobody catches: the traceback (its frames left out) goes
    to [sys.stderr] and the interpreter ends with status 1, or, for an
    interrupt, by re-raising the signal. *)
Definition uncaught (e : exc) (p : process) (rs : list (list chunk)) : outcome :=
  match e with
  | KeyboardInterrupt =>
      {| final := stderr_lines ["Traceback (most recent call last):" +:+ LF;
                                "KeyboardInterrupt" +:+ LF] p;
         replies := rs; ending := interrupted |}
  | Error class_name message =>
      {| final := stderr_lines ["Traceback (most recent call last):" +:+ LF;
                                class_name +:+ ": " +:+ message +:+ LF] p;
         replies := rs; ending := exited 1 |}
  end.

(** [socketserver.BaseServer.serve_forever]: one handler instance per
    accepted connection, created where the process stands at that time. *)
Fixpoint serve_forever (cls : handler_class) (sys : platform) (fs : filesystem)
    (connections : list arrival) (p : process) : process * list (list chunk) :=
  match connections with
  | [] => (p, [])
  | a :: rest =>
      let self := handle cls sys fs (cwd p) a in
      let '(p', rs) := serve_forever cls sys fs rest (stderr_lines (stderr self) p) in
      (p', wfile self :: rs)
  end.

(** [simple-server.py] *)
Module simple_server.

Definition PORT : N := 8080.

Definition DIRECTORY (getcwd __file__ : string) : string :=
  posixpath.dirname (abspath getcwd __file__).

Definition main (sys : platform) (fs : filesystem) (__file__ : string)
    (ev : events) (p : process) : outcome :=
  let DIRECTORY := DIRECTORY (cwd p) __file__ in
  let p := print ("Starting server on port " +:+ Str.of_N PORT) p in
  let p := print ("Serving files from: " +:+ DIRECTORY) p in
  let p := print ("Open your browser and navigate to: http://localhost:"
                  +:+ Str.of_N PORT +:+ "/simple-start.html") p in
  let p := print "Press Ctrl+C to stop the server" p in
  let p := chdir DIRECTORY p in
  let '(p, rs, e) :=
    match bind_error ev with
    | Some e => (p, [], e)
    | None =>
        let p := print "Server started successfully. Press Ctrl+C to stop." p in
        let '(p, rs) :=
          serve_forever (CORSRequestHandler.class sys (types_map p)) sys fs
            (traffic ev) p in
        (p, rs, stop ev)
    end in
  match e with
  | KeyboardInterrupt =>
      {| final := print (LF +:+ "Server stopped by user.") p;
         replies := rs; ending := exited 0 |}
  | Error _ message =>
      {| final := print ("Error starting server: " +:+ message) p;
         replies := rs; ending := exited 0 |}
  end.

End simple_server.

(** [scripts/server.py] *)
Module server.

Definition PORT : N := 8080.

Definition DIRECTORY (getcwd __file__ : string) : string :=
  posixpath.dirname (abspath getcwd __file__).

Definition main (sys : platform) (fs : filesystem) (__file__ : string)
    (ev : events) (p : process) : outcome :=
  let p := add_type "application/javascript" ".js" p in
  let p := add_type "text/css" ".css" p in
  let DIRECTORY := DIRECTORY (cwd p) __file__ in
  let p := print ("Starting server at http://localhost:" +:+ Str.of_N PORT) p in
  let p := print ("Serving files from: " +:+ DIRECTORY) p in
  let p := print "Press Ctrl+C to stop the server" p in
  match bind_error ev with
  | Some e => uncaught e p []
  | None =>
      let '(p, rs) :=
        serve_forever (CustomHTTPRequestHandler.class DIRECTORY sys (types_map p))
          sys fs (traffic ev) p in
      match stop ev with
      | KeyboardInterrupt =>
          {| final := print (LF +:+ "Server stopped.") p;
             replies := rs; ending := exited 0 |}
      | e => uncaught e p rs
      end
  end.

End server.

(** ** Reading a response *)

(** The header blocks, and the body data, a connection received. *)
Definition heads (w : list chunk) : list (list line) :=
  omap (λ c, match c with head ls => Some ls | data _ => None end) w.

Definition bodies (w : list chunk) : list string :=
  omap (λ c, match c with data b => Some b | head _ => None end) w.

(** The status codes of the status lines of a header block. *)
Definition statuses (ls : list line) : list N :=
  omap (λ l, match l with status_line _ code _ => Some code | _ => None end) ls.

(** The values of the header fields named [name], whatever the case of the
    name, in the order sent. *)
Definition header_values (name : string) (ls : list line) : list string :=
  omap (λ l, match l with
             | header_line keyword val =>
                 if String.eqb (Str.lower keyword) (Str.lower name)
                 then Some val else None
             | _ => None
             end) ls.

(** The two scripts side by side. *)
Inductive script := simple_server_py | server_py.

(** The handler class a script gives [TCPServer]; [DIRECTORY] is the
    module constant of the script. *)
Definition handler_of (s : script) (DIRECTORY : string) (sys : platform)
    (types_map : gmap string string) : handler_class :=
  match s with
  | simple_server_py => CORSRequestHandler.class sys types_map
  | server_py => CustomHTTPRequestHandler.class DIRECTORY sys types_map
  end.

Definition run (s : script) : platform → filesystem → string → events → process → outcome :=
  match s with
  | simple_server_py => simple_server.main
  | server_py => server.main
  end.

(** ** Closed forms

    What a handler method leaves behind, written without the monad.  The
    lemmas of the second half of the file show that the methods above
    compute exactly these. *)

Definition mk (r : request.t) (d : string) (buf : list line) (w : list chunk)
    (cc : bool) (err : list string) : handler :=
  {| req := r; directory := d; _headers_buffer := buf; wfile := w;
     close_connection := cc; stderr := err |}.

(** A status line and header fields are only produced for a request that
    is not HTTP/0.9. *)
Definition ver (r : request.t) : bool :=
  bool_decide (request.request_version r ≠ "HTTP/0.9").

(** The three fields both [end_headers] overrides add. *)
Definition cors_headers : list line :=
  [header_line "Access-Control-Allow-Origin" "*";
   header_line "Access-Control-Allow-Methods" "GET";
   header_line "Cache-Control" "no-store, no-cache, must-revalidate"].

(** One complete answer: status line, the fields sent before
    [end_headers], the data after it, whether [Connection: close] was
    among the fields, and the lines logged. *)
Record answer := {
  ans_code : HTTPStatus;
  ans_reason : string;
  ans_fields : list line;
  ans_payload : list chunk;
  ans_closing : bool;
  ans_log : list string;
}.

(** The header block of an answer. *)
Definition header_block (sys : platform) (a : answer) : list line :=
  status_line BaseHTTPRequestHandler.protocol_version
    (value (ans_code a)) (ans_reason a)
  :: header_line "Server" (version_string sys)
  :: header_line "Date" (date_time_string sys None)
  :: ans_fields a ++ cors_headers ++ [blank_line].

Definition render (sys : platform) (a : answer) (s : handler) : handler :=
  mk (req s) (directory s)
     (if ver (req s) then [] else _headers_buffer s)
     (wfile s
      ++ (if ver (req s)
          then [head (_headers_buffer s ++ header_block sys a)]
          else [])
      ++ ans_payload a)
     (ans_closing a || close_connection s)
     (stderr s ++ ans_log a).

(** A class whose [log_message] writes one line [L message] and whose
    [end_headers] adds [cors_headers] before the inherited one. *)
Record regular (cls : handler_class) (L : string → string) : Prop := {
  regular_log : ∀ format args r d buf w cc err,
    virtual.log_message cls format args (mk r d buf w cc err)
    = (tt, mk r d buf w cc (err ++ [L (percent format args)]));
  regular_end : ∀ r d buf w cc err,
    virtual.end_headers cls (mk r d buf w cc err)
    = (tt, if ver r
           then mk r d [] (w ++ [head (buf ++ cors_headers ++ [blank_line])]) cc err
           else mk r d buf w cc err);
}.

(** The two messages the inherited code logs: [log_request] for every
    response, [log_error] before it when the response is an error. *)
Definition request_message (r : request.t) (code : HTTPStatus) : string :=
  percent (DQ +:+ "%s" +:+ DQ +:+ " %s %s")
    [request.requestline r; Str.of_N (value code); "-"].

Definition error_message (code : HTTPStatus) (message : string) : string :=
  percent "code %d, message %s" [Str.of_N (value code); message].

Section answers.
Context (L : string → string) (guess : string → string)
        (sys : platform) (fs : filesystem).

Definition request_log (r : request.t) (code : HTTPStatus) : string :=
  L (request_message r code).

Definition error_log (code : HTTPStatus) (message : string) : string :=
  L (error_message code message).

Definition error_page (code : HTTPStatus) (message explain : option string)
  : option string :=
  if (200 <=? value code)%N
     && negb (bool_decide (value code ∈ [204; 205; 304]%N))
  then Some (BaseHTTPRequestHandler.error_message_format
               (Str.of_N (value code))
               (BaseHTTPRequestHandler.html_escape
                  (default (fst (responses code)) message))
               (BaseHTTPRequestHandler.html_escape
                  (default (snd (responses code)) explain)))
  else None.

Definition error_answer (r : request.t) (code : HTTPStatus)
    (message explain : option string) : answer :=
  let reason := default (fst (responses code)) message in
  {| ans_code := code;
     ans_reason := reason;
     ans_fields :=
       header_line "Connection" "close"
       :: match error_page code message explain with
          | Some content =>
              [header_line "Content-Type" BaseHTTPRequestHandler.error_content_type;
               header_line "Content-Length" (Str.of_nat (String.length content))]
          | None => []
          end;
     ans_payload :=
       match error_page code message explain with
       | Some content =>
           if bool_decide (request.command r ≠ "HEAD")
              && negb (String.eqb content "")
           then [data content] else []
       | None => []
       end;
     ans_closing := true;
     ans_log := [error_log code reason; request_log r code] |}.

Definition plain_answer (r : request.t) (code : HTTPStatus)
    (fields : list line) : answer :=
  {| ans_code := code; ans_reason := fst (responses code);
     ans_fields := fields; ans_payload := []; ans_closing := false;
     ans_log := [request_log r code] |}.

Definition not_modified (r : request.t) (st_mtime : Z) : bool :=
  match request.if_modified_since r with
  | Some ims => negb (request.if_none_match r) && (st_mtime <=? ims)
  | None => false
  end.

(** The answer of [send_file_head], and the file it returns. *)
Definition file_answer (r : request.t) (path : string) : answer * option string :=
  if Str.endswith path "/" then
    (error_answer r NOT_FOUND (Some "File not found") None, None)
  else
    match open fs path with
    | None => (error_answer r NOT_FOUND (Some "File not found") None, None)
    | Some (content, st_mtime) =>
        if not_modified r st_mtime then (plain_answer r NOT_MODIFIED [], None)
        else
          (plain_answer r OK
             [header_line "Content-type" (guess path);
              header_line "Content-Length" (Str.of_nat (String.length content));
              header_line "Last-Modified" (date_time_string sys (Some st_mtime))],
           Some content)
    end.

Definition listing_answer (r : request.t) (path : string) : answer * option string :=
  match listdir fs path with
  | None =>
      (error_answer r NOT_FOUND (Some "No permission to list directory") None, None)
  | Some list =>
      let encoded := directory_page sys (request.path r) path list in
      (plain_answer r OK
         [header_line "Content-type"
            (percent "text/html; charset=%s" [getfilesystemencoding sys]);
          header_line "Content-Length" (Str.of_nat (String.length encoded))],
       Some encoded)
  end.

(** The answer of [send_head], and the file it returns. *)
Definition head_answer (r : request.t) (d : string) : answer * option string :=
  let path := SimpleHTTPRequestHandler.translate_path d (request.path r) in
  if isdir fs path then
    let parts := urlsplit sys (request.path r) in
    if negb (Str.endswith (urllib.path parts) "/") then
      (plain_answer r MOVED_PERMANENTLY
         [header_line "Location"
            (urlunsplit sys
               {| urllib.scheme := urllib.scheme parts;
                  urllib.netloc := urllib.netloc parts;
                  urllib.path := urllib.path parts +:+ "/";
                  urllib.query := urllib.query parts;
                  urllib.fragment := urllib.fragment parts |});
          header_line "Content-Length" "0"],
       None)
    else
      match List.find (λ index, isfile fs (posixpath.join path index))
                      ["index.html"; "index.htm"] with
      | Some index => file_answer r (posixpath.join path index)
      | None => listing_answer r path
      end
  else file_answer r path.

(** [do_GET] copies the file [send_head] returned. *)
Definition with_file (af : answer * option string) : answer :=
  match af with
  | (a, Some f) =>
      {| ans_code := ans_code a; ans_reason := ans_reason a;
         ans_fields := ans_fields a;
         ans_payload :=
           ans_payload a ++ (if String.eqb f "" then [] else [data f]);
         ans_closing := ans_closing a; ans_log := ans_log a |}
  | (a, None) => a
  end.

(** The answer to what a connection brings, for a handler created with
    directory [d]. *)
Definition answer_of (a : arrival) (d : string) : option answer :=
  match a with
  | nothing => None
  | line_too_long =>
      Some (error_answer (request_of a) REQUEST_URI_TOO_LONG None None)
  | rejected _ _ code message explain =>
      Some (error_answer (request_of a) code (Some message) explain)
  | parsed r =>
      if String.eqb (request.command r) "GET" then
        Some (with_file (head_answer r d))
      else if String.eqb (request.command r) "HEAD" then
        Some (fst (head_answer r d))
      else
        Some (error_answer r NOT_IMPLEMENTED
                (Some (percent "Unsupported method (%r)"
                         [repr sys (request.command r)]))
                None)
  end.

End answers.

(** An answer logs the request line alone when it is 200, 301 or 304, and
    the error line before it when it is an error. *)
Definition logs_like (L : string → string) (r : request.t) (ans : answer) : Prop :=
  ((value (ans_code ans) < 400)%N
   ∧ ans_log ans = [L (request_message r (ans_code ans))])
  ∨ ((400 ≤ value (ans_code ans))%N
     ∧ ans_log ans = [L (error_message (ans_code ans) (ans_reason ans));
                      L (request_message r (ans_code ans))]).

(** Two answers with the same header block. *)
Definition same_head (a b : answer) : Prop :=
  ans_code a = ans_code b ∧ ans_reason a = ans_reason b
  ∧ ans_fields a = ans_fields b.

(** The log line formats of the two classes. *)
Definition log_line (s : script) (sys : platform) (message : string) : string :=
  match s with
  | simple_server_py => log_date_time_string sys +:+ ": " +:+ message +:+ LF
  | server_py =>
      percent "%s - - [%s] %s"
        [address_string sys; log_date_time_string sys;
         BaseHTTPRequestHandler.escape_control message] +:+ LF
  end.

(** ** The server as a connection sees it *)

(** The MIME table, the class, and the working directory, the script
    serves with once it has started from process [p] as file [__file__]. *)
Definition serving_types (s : script) (p : process) : gmap string string :=
  match s with
  | simple_server_py => types_map p
  | server_py =>
      mimetypes.add_type "text/css" ".css"
        (mimetypes.add_type "application/javascript" ".js" (types_map p))
  end.

Definition serving_class (s : script) (sys : platform) (__file__ : string)
    (p : process) : handler_class :=
  match s with
  | simple_server_py => CORSRequestHandler.class sys (serving_types s p)
  | server_py =>
      CustomHTTPRequestHandler.class (server.DIRECTORY (cwd p) __file__) sys
        (serving_types s p)
  end.

Definition serving_cwd (s : script) (__file__ : string) (p : process) : string :=
  match s with
  | simple_server_py => simple_server.DIRECTORY (cwd p) __file__
  | server_py => cwd p
  end.

(** What a connection receives, and what its handling logs. *)
Definition reply_to (s : script) (sys : platform) (fs : filesystem)
    (__file__ : string) (p : process) (a : arrival) : list chunk :=
  wfile (handle (serving_class s sys __file__ p) sys fs (serving_cwd s __file__ p) a).

Definition log_of (s : script) (sys : platform) (fs : filesystem)
    (__file__ : string) (p : process) (a : arrival) : list string :=
  stderr (handle (serving_class s sys __file__ p) sys fs (serving_cwd s __file__ p) a).

(** The directory both scripts mean to serve: the one holding the script. *)
Definition base_directory (getcwd __file__ : string) : string :=
  posixpath.dirname (abspath getcwd __file__).

(** The file path a request resolves to. *)
Definition resolved (getcwd __file__ : string) (r : request.t) : string :=
  SimpleHTTPRequestHandler.translate_path
    (base_directory getcwd __file__) (request.path r).

(** The line each script prints when it is interrupted. *)
Definition stop_message (s : script) : string :=
  match s with
  | simple_server_py => LF +:+ "Server stopped by user." +:+ LF
  | server_py => LF +:+ "Server stopped." +:+ LF
  end.

(** The three fixed fields, each present once with its value. *)
Definition fixed_headers (ls : list line) : Prop :=
  header_values "Access-Control-Allow-Origin" ls = ["*"]
  ∧ header_values "Access-Control-Allow-Methods" ls = ["GET"]
  ∧ header_values "Cache-Control" ls = ["no-store, no-cache, must-revalidate"].

(** A header field that is none of the three. *)
Definition cors_name (keyword : string) : bool :=
  String.eqb (Str.lower keyword) (Str.lower "Access-Control-Allow-Origin")
  || String.eqb (Str.lower keyword) (Str.lower "Access-Control-Allow-Methods")
  || String.eqb (Str.lower keyword) (Str.lower "Cache-Control").

Definition ordinary (l : line) : Prop :=
  match l with
  | header_line keyword _ => cors_name keyword = false
  | _ => False
  end.

(** A name of a directory entry proper: not empty, not [.] or [..], no
    separator in it. *)
Definition simple_name (w : string) : Prop :=
  w ≠ "" ∧ w ≠ "." ∧ w ≠ ".." ∧ Str.contains "/"%char w = false.

(** [under d q]: the path [q] is reached from the directory [d] by going
    down into named entries only. *)
Inductive under (d : string) : string → Prop :=
| under_base : under d d
| under_name q w : under d q → simple_name w → under d (posixpath.join q w)
| under_slash q : under d q → under d (q +:+ "/").

(** The same request with another method. *)
Definition with_command (c : string) (r : request.t) : request.t :=
  {| request.command := c; request.path := request.path r;
     request.request_version := request.request_version r;
     request.requestline := request.requestline r;
     request.if_modified_since := request.if_modified_since r;
     request.if_none_match := request.if_none_match r |}.

(** ** A concrete host, for the examples *)

Module Demo.

Definition host : platform := {|
  version_string := "SimpleHTTP/0.6 Python/3.11.2";
  date_time_string := λ _, "Wed, 04 Nov 2026 10:00:00 GMT";
  log_date_time_string := "04/Nov/2026 10:00:00";
  address_string := "127.0.0.1";
  getfilesystemencoding := "utf-8";
  repr := λ s, "'" +:+ s +:+ "'";
  urlsplit := λ url,
    {| urllib.scheme := ""; urllib.netloc := "";
       urllib.path := Str.before "?"%char (Str.before "#"%char url);
       urllib.query := default "" (Str.after "?"%char (Str.before "#"%char url));
       urllib.fragment := default "" (Str.after "#"%char url) |};
  urlunsplit := λ parts,
    urllib.path parts
    +:+ (if String.eqb (urllib.query parts) "" then ""
         else "?" +:+ urllib.query parts)
    +:+ (if String.eqb (urllib.fragment parts) "" then ""
         else "#" +:+ urllib.fragment parts);
  directory_page := λ _ _ _, "<!DOCTYPE HTML>";
|}.

(** [/srv/www] holds the script and a few files; [secret.txt] cannot be
    read by the server's user; [/etc/passwd] is outside. *)
Definition tree : filesystem := λ p,
  if String.eqb p "/srv/www" || String.eqb p "/srv/www/"
  then Directory (Some [".css"; "app.js"; "index.html"; "secret.txt"; "style.css"])
  else if String.eqb p "/srv/www/index.html" then RegularFile true "<html></html>" 1000
  else if String.eqb p "/srv/www/app.js" then RegularFile true "let x;" 1000
  else if String.eqb p "/srv/www/style.css" then RegularFile true "a{}" 1000
  else if String.eqb p "/srv/www/.css" then RegularFile true "b{}" 1000
  else if String.eqb p "/srv/www/secret.txt" then RegularFile false "s3cret" 1000
  else if String.eqb p "/etc/passwd" then RegularFile true "root:x:0:0" 1000
  else NoEntry.

(** The same tree with another [/etc/passwd]. *)
Definition tree' : filesystem := λ p,
  if String.eqb p "/etc/passwd" then RegularFile true "nobody" 2000 else tree p.

(** A process started in [/home/dev] on a host with the given MIME table. *)
Definition boot (host_types : gmap string string) : process :=
  {| cwd := "/home/dev"; types_map := host_types;
     sys_stdout := []; sys_stderr := [] |}.

(** A host whose tables give [text/plain] for scripts and style sheets. *)
Definition plain_text_host : process :=
  boot (<[".js" := "text/plain"]> (<[".css" := "text/plain"]> ∅)).

Definition request (method path : string) : request.t :=
  {| request.command := method; request.path := path;
     request.request_version := "HTTP/1.1";
     request.requestline := method +:+ " " +:+ path +:+ " HTTP/1.1";
     request.if_modified_since := None; request.if_none_match := false |}.

Definition GET (path : string) : arrival := parsed (request "GET" path).

(** A run in which [connections] arrive and then Ctrl-C is pressed. *)
Definition session (connections : list arrival) : events :=
  {| bind_error := None; traffic := connections; stop := KeyboardInterrupt |}.

(** A run in which the port is taken. *)
Definition port_taken : events :=
  {| bind_error := Some (Error "OSError" "[Errno 98] Address already in use");
     traffic := []; stop := KeyboardInterrupt |}.

End Demo.

(** ** What the classes answer with *)

(** The Content-type the class of a script guesses for a file path, with
    the MIME table the script serves with. *)
Definition content_type (s : script) (p : process) (path : string) : string :=
  match s with
  | simple_server_py =>
      SimpleHTTPRequestHandler.guess_type (serving_types s p) path
  | server_py =>
      CustomHTTPRequestHandler.guess_type (serving_types s p) path
  end.

(** The page [send_error] sends for 404. *)
Definition not_found_page : string :=
  BaseHTTPRequestHandler.error_message_format "404"
    (BaseHTTPRequestHandler.html_escape "File not found")
    (BaseHTTPRequestHandler.html_escape (snd (responses NOT_FOUND))).

(** The same request for another path. *)
Definition with_path (path : string) (r : request.t) : request.t :=
  {| request.command := request.command r; request.path := path;
     request.request_version := request.request_version r;
     request.requestline := request.requestline r;
     request.if_modified_since := request.if_modified_since r;
     request.if_none_match := request.if_none_match r |}.

(** ** More examples *)

Module Examples.

(** The request line [GET /app.js], without a version: HTTP/0.9. *)
Definition old_request : request.t :=
  {| request.command := "GET"; request.path := "/app.js";
     request.request_version := "HTTP/0.9";
     request.requestline := "GET /app.js";
     request.if_modified_since := None; request.if_none_match := false |}.

(** A GET with the header [If-Modified-Since], its date given in seconds. *)
Definition conditional (path : string) (ims : Z) : request.t :=
  {| request.command := "GET"; request.path := path;
     request.request_version := "HTTP/1.1";
     request.requestline := "GET " +:+ path +:+ " HTTP/1.1";
     request.if_modified_since := Some ims; request.if_none_match := false |}.

(** [Demo.tree] with a directory [assets] in it. *)
Definition tree : filesystem := λ p,
  if String.eqb p "/srv/www/assets" || String.eqb p "/srv/www/assets/"
  then Directory (Some ["logo.svg"])
  else if String.eqb p "/srv/www/assets/logo.svg"
  then RegularFile true "<svg/>" 1000
  else Demo.tree p.

End Examples.

(** The status codes of the header blocks a connection received. *)
Definition statuses_of (w : list chunk) : list (list N) :=
  map statuses (heads w).

(** A name of a directory entry that a URL path can spell as it is: no
    [%], [?] or [#] in it, and not made of white space only. *)
Definition plain_name (w : string) : Prop :=
  simple_name w
  ∧ Str.contains "%"%char w = false
  ∧ Str.contains "?"%char w = false
  ∧ Str.contains "#"%char w = false
  ∧ Str.rstrip w ≠ "".

(** * Properties *)

(** ** Running the monad *)

Lemma run_bind {A B} (m : M A) (f : A → M B) s a s' :
  m s = (a, s') → (m ≫= f) s = f a s'.
Proof. intros H. unfold mbind, M_bind. by rewrite H. Qed.

Lemma run_get s : get s = (s, s).
Proof. reflexivity. Qed.

Lemma run_ret {A} (a : A) s : (mret a : M A) s = (a, s).
Proof. reflexivity. Qed.

Section primitives.
Import BaseHTTPRequestHandler.
Variables (r : request.t) (d : string) (buf : list line) (w : list chunk)
          (cc : bool) (err : list string).

Lemma run_send_header k v :
  String.eqb (Str.lower k) "connection" = false →
  send_header k v (mk r d buf w cc err)
  = (tt, mk r d (buf ++ if ver r then [header_line k v] else []) w cc err).
Proof.
  intros Hk. unfold send_header, mk, ver.
  erewrite run_bind by apply run_get. cbn [req].
  rewrite Hk.
  destruct (bool_decide _); cbn; by rewrite ?app_nil_r.
Qed.

Lemma run_send_header_close :
  send_header "Connection" "close" (mk r d buf w cc err)
  = (tt, mk r d (buf ++ if ver r then [header_line "Connection" "close"] else [])
           w true err).
Proof.
  unfold send_header, mk, ver.
  erewrite run_bind by apply run_get. cbn [req].
  destruct (bool_decide _); cbn; by rewrite ?app_nil_r.
Qed.

Lemma run_send_response_only code message :
  send_response_only code message (mk r d buf w cc err)
  = (tt, mk r d
           (buf ++ if ver r
                   then [status_line protocol_version (value code)
                           (default (fst (responses code)) message)]
                   else [])
           w cc err).
Proof.
  unfold send_response_only, mk, ver.
  erewrite run_bind by apply run_get. cbn [req].
  destruct (bool_decide _); cbn; by rewrite ?app_nil_r.
Qed.

Lemma run_end_headers :
  end_headers (mk r d buf w cc err)
  = (tt, if ver r then mk r d [] (w ++ [head (buf ++ [blank_line])]) cc err
         else mk r d buf w cc err).
Proof.
  unfold end_headers, mk, ver.
  erewrite run_bind by apply run_get. cbn [req].
  by destruct (bool_decide _).
Qed.

Lemma run_wfile_write c :
  wfile_write c (mk r d buf w cc err) = (tt, mk r d buf (w ++ [c]) cc err).
Proof. reflexivity. Qed.

End primitives.

(** Both overrides of [end_headers] are the same three fields before the
    inherited method. *)
Lemma run_cors_end_headers r d buf w cc err :
  CORSRequestHandler.end_headers (mk r d buf w cc err)
  = (tt, if ver r
         then mk r d [] (w ++ [head (buf ++ cors_headers ++ [blank_line])]) cc err
         else mk r d buf w cc err).
Proof.
  unfold CORSRequestHandler.end_headers.
  do 3 (erewrite run_bind by (apply run_send_header; reflexivity)).
  rewrite run_end_headers.
  destruct (ver r); cbn; rewrite ?app_nil_r; [|done].
  by rewrite <- !app_assoc.
Qed.

Lemma regular_handler_of s D sys tm :
  regular (handler_of s D sys tm) (log_line s sys).
Proof.
  destruct s; split; intros; try apply run_cors_end_headers; reflexivity.
Qed.

(** ** The inherited methods compute the closed forms *)

Section refinement.
Import BaseHTTPRequestHandler.
Context (cls : handler_class) (L : string → string) (Hreg : regular cls L)
        (sys : platform) (fs : filesystem).

Lemma run_send_response code message r d buf w cc err :
  send_response cls sys code message (mk r d buf w cc err)
  = (tt, mk r d
           (buf ++ if ver r
                   then [status_line protocol_version (value code)
                           (default (fst (responses code)) message);
                         header_line "Server" (version_string sys);
                         header_line "Date" (date_time_string sys None)]
                   else [])
           w cc (err ++ [request_log L r code])).
Proof.
  unfold send_response, log_request.
  erewrite run_bind; last first.
  { erewrite run_bind by apply run_get. apply (regular_log _ _ Hreg). }
  erewrite run_bind by apply run_send_response_only.
  erewrite run_bind by (apply run_send_header; reflexivity).
  rewrite run_send_header by reflexivity.
  unfold request_log. cbn [req mk].
  destruct (ver r); cbn; by rewrite <- ?app_assoc, ?app_nil_r.
Qed.

Ltac prim :=
  first
    [ apply run_send_header; reflexivity
    | apply run_send_header_close
    | apply run_send_response
    | apply (regular_end _ _ Hreg)
    | apply (regular_log _ _ Hreg)
    | apply run_get
    | apply run_ret
    | erewrite run_bind by prim; prim ].

Ltac step := erewrite run_bind by prim.

Ltac finish r :=
  unfold render, header_block, plain_answer, mk; cbn;
  destruct (ver r); cbn; rewrite <- ?app_assoc, ?app_nil_r; reflexivity.

Lemma run_send_error code message explain r d buf w cc err :
  send_error cls sys code message explain (mk r d buf w cc err)
  = (tt, render sys (error_answer L r code message explain) (mk r d buf w cc err)).
Proof.
  unfold send_error, log_error, error_answer, error_page.
  destruct (responses code) as [shortmsg longmsg] eqn:Hresp. cbn [fst snd].
  do 3 step.
  destruct ((200 <=? value code)%N && _); cbv beta iota.
  - do 3 step.
    unfold error_log, request_log, render, header_block.
    destruct (ver r) eqn:Hv; cbn [req mk directory _headers_buffer wfile
                                  close_connection stderr ans_code ans_reason
                                  ans_fields ans_payload ans_closing ans_log];
      rewrite ?Hv;
      (destruct (bool_decide _ && _);
       [rewrite run_wfile_write|rewrite run_ret]; unfold mk; cbn;
       rewrite <- ?app_assoc, ?app_nil_r; reflexivity).
  - do 3 step.
    unfold error_log, request_log, render, header_block, mk; cbn.
    destruct (ver r); cbn; rewrite <- ?app_assoc, ?app_nil_r; reflexivity.
Qed.

Lemma run_send_file_head path r d buf w cc err :
  SimpleHTTPRequestHandler.send_file_head cls sys fs path (mk r d buf w cc err)
  = (snd (file_answer L (virtual.guess_type cls) sys fs r path),
     render sys (fst (file_answer L (virtual.guess_type cls) sys fs r path))
       (mk r d buf w cc err)).
Proof.
  unfold SimpleHTTPRequestHandler.send_file_head, file_answer.
  step. cbn [req mk].
  destruct (Str.endswith path "/").
  { erewrite run_bind by apply run_send_error. reflexivity. }
  destruct (open fs path) as [[content st_mtime]|].
  2: { erewrite run_bind by apply run_send_error. reflexivity. }
  fold (not_modified r st_mtime).
  destruct (not_modified r st_mtime).
  - do 2 step. cbn [fst snd]. f_equal. finish r.
  - do 5 step. cbn [fst snd]. f_equal. finish r.
Qed.

Lemma run_list_directory path r d buf w cc err :
  SimpleHTTPRequestHandler.list_directory cls sys fs path (mk r d buf w cc err)
  = (snd (listing_answer L sys fs r path),
     render sys (fst (listing_answer L sys fs r path)) (mk r d buf w cc err)).
Proof.
  unfold SimpleHTTPRequestHandler.list_directory, listing_answer.
  destruct (listdir fs path) as [list|].
  2: { erewrite run_bind by apply run_send_error. reflexivity. }
  do 5 step. cbn [fst snd req mk]. f_equal. finish r.
Qed.

Lemma run_send_head r d buf w cc err :
  SimpleHTTPRequestHandler.send_head cls sys fs (mk r d buf w cc err)
  = (snd (head_answer L (virtual.guess_type cls) sys fs r d),
     render sys (fst (head_answer L (virtual.guess_type cls) sys fs r d))
       (mk r d buf w cc err)).
Proof.
  unfold SimpleHTTPRequestHandler.send_head, head_answer.
  step. cbn [req directory mk].
  destruct (isdir fs _).
  - destruct (negb _).
    + do 4 step. cbn [fst snd]. f_equal. finish r.
    + destruct (List.find _ _).
      * apply run_send_file_head.
      * apply run_list_directory.
  - apply run_send_file_head.
Qed.

Lemma handle_answer getcwd a :
  handle cls sys fs getcwd a
  = let d := default getcwd (virtual.init_directory cls) in
    let s0 := mk (request_of a) d [] [] true [] in
    match answer_of L (virtual.guess_type cls) sys fs a d with
    | Some ans => render sys ans s0
    | None => s0
    end.
Proof.
  unfold handle, exec, handle_one_request, SimpleHTTPRequestHandler.__init__.
  fold (mk (request_of a) (default getcwd (virtual.init_directory cls)) [] [] true []).
  destruct a as [| | rl v code msg ex | r]; cbn [answer_of].
  - reflexivity.
  - by rewrite run_send_error.
  - by rewrite run_send_error.
  - cbn [request_of].
    destruct (String.eqb (request.command r) "GET").
    + unfold SimpleHTTPRequestHandler.do_GET.
      erewrite run_bind by apply run_send_head.
      destruct (head_answer _ _ _ _ _ _) as [ans [f|]]; cbn [fst snd with_file].
      * unfold SimpleHTTPRequestHandler.copyfile.
        destruct (String.eqb f ""); unfold render, header_block; cbn;
          rewrite ?app_nil_r, <- ?app_assoc; reflexivity.
      * reflexivity.
    + destruct (String.eqb (request.command r) "HEAD").
      * unfold SimpleHTTPRequestHandler.do_HEAD.
        erewrite run_bind by apply run_send_head. reflexivity.
      * by rewrite run_send_error.
Qed.

End refinement.

(** ** The serving loop and the scripts *)

Lemma serve_forever_spec cls sys fs conns p :
  let q := fst (serve_forever cls sys fs conns p) in
  snd (serve_forever cls sys fs conns p)
  = map (λ a, wfile (handle cls sys fs (cwd p) a)) conns
  ∧ cwd q = cwd p ∧ types_map q = types_map p
  ∧ sys_stdout q = sys_stdout p
  ∧ sys_stderr q
    = sys_stderr p ++ concat (map (λ a, stderr (handle cls sys fs (cwd p) a)) conns).
Proof.
  revert p. induction conns as [|a rest IH]; intros p; cbn.
  - by rewrite app_nil_r.
  - specialize (IH (stderr_lines (stderr (handle cls sys fs (cwd p) a)) p)).
    destruct (serve_forever _ _ _ rest _) as [p' rs].
    cbn in *. destruct IH as (-> & -> & -> & -> & ->).
    by rewrite app_assoc.
Qed.

Lemma run_replies s sys fs __file__ ev p :
  replies (run s sys fs __file__ ev p)
  = match bind_error ev with
    | None => map (reply_to s sys fs __file__ p) (traffic ev)
    | Some _ => []
    end.
Proof.
  destruct s; cbn; unfold simple_server.main, server.main, reply_to;
    destruct (bind_error ev) as [e|]; cbn.
  - by destruct e.
  - match goal with
    | |- context [serve_forever ?c ?y ?f ?t ?q] =>
        pose proof (serve_forever_spec c y f t q) as H;
        destruct (serve_forever c y f t q) as [p' rs]
    end.
    cbn in H. destruct H as (-> & _). by destruct (stop ev).
  - by destruct e.
  - match goal with
    | |- context [serve_forever ?c ?y ?f ?t ?q] =>
        pose proof (serve_forever_spec c y f t q) as H;
        destruct (serve_forever c y f t q) as [p' rs]
    end.
    cbn in H. destruct H as (-> & _). by destruct (stop ev).
Qed.

(** ** Reading header blocks *)

Lemma header_values_app name l1 l2 :
  header_values name (l1 ++ l2) = header_values name l1 ++ header_values name l2.
Proof. apply omap_app. Qed.

Lemma header_values_cons name k v ls :
  header_values name (header_line k v :: ls)
  = (if String.eqb (Str.lower k) (Str.lower name) then [v] else [])
    ++ header_values name ls.
Proof. unfold header_values; cbn. by destruct (String.eqb _ _). Qed.

Lemma header_values_ordinary name ls :
  cors_name name = true → Forall ordinary ls → header_values name ls = [].
Proof.
  intros Hn. induction 1 as [|l ls Hl _ IH]; [done|].
  destruct l as [| k v |]; try done.
  rewrite header_values_cons, IH, app_nil_r.
  destruct (String.eqb (Str.lower k) (Str.lower name)) eqn:E; [|done].
  apply String.eqb_eq in E. cbn in Hl. unfold cors_name in *.
  rewrite E in Hl. congruence.
Qed.

Lemma statuses_ordinary ls : Forall ordinary ls → statuses ls = [].
Proof. induction 1 as [|[| |] ls Hl _ IH]; done. Qed.

Lemma header_values_block name sys a :
  header_values name (header_block sys a)
  = header_values name [header_line "Server" (version_string sys);
                        header_line "Date" (date_time_string sys None)]
    ++ header_values name (ans_fields a)
    ++ header_values name cors_headers.
Proof.
  unfold header_block.
  change (header_values name (status_line ?p ?c ?m :: ?x :: ?y :: ?l))
    with (header_values name ([x; y] ++ l)).
  rewrite !header_values_app. by rewrite app_nil_r.
Qed.

Lemma statuses_block sys a :
  Forall ordinary (ans_fields a) →
  statuses (header_block sys a) = [value (ans_code a)].
Proof.
  intros H. unfold header_block, statuses. cbn. f_equal.
  rewrite omap_app. fold (statuses (ans_fields a)). by rewrite statuses_ordinary.
Qed.

Lemma fixed_headers_block sys a :
  Forall ordinary (ans_fields a) → fixed_headers (header_block sys a).
Proof.
  intros H. unfold fixed_headers.
  repeat split;
    rewrite header_values_block, (header_values_ordinary _ (ans_fields a))
      by (done || reflexivity);
    reflexivity.
Qed.

(** ** What the answers are made of *)

Section answer_facts.
Context (L : string → string) (guess : string → string)
        (sys : platform) (fs : filesystem).

Lemma error_answer_ordinary r code message explain :
  let ans := error_answer L r code message explain in
  Forall ordinary (ans_fields ans) ∧ heads (ans_payload ans) = [].
Proof.
  unfold error_answer; cbn. destruct (error_page _ _ _); cbn.
  - split; [by repeat constructor|]. by destruct (_ && _).
  - split; [by repeat constructor|done].
Qed.

Lemma file_answer_ordinary r path :
  let ans := fst (file_answer L guess sys fs r path) in
  Forall ordinary (ans_fields ans) ∧ heads (ans_payload ans) = [].
Proof.
  unfold file_answer.
  destruct (Str.endswith path "/"); [apply error_answer_ordinary|].
  destruct (open fs path) as [[content st_mtime]|]; [|apply error_answer_ordinary].
  destruct (not_modified r st_mtime); cbn; split; by repeat constructor.
Qed.

Lemma head_answer_ordinary r d :
  let ans := fst (head_answer L guess sys fs r d) in
  Forall ordinary (ans_fields ans) ∧ heads (ans_payload ans) = [].
Proof.
  unfold head_answer.
  destruct (isdir fs _); [|apply file_answer_ordinary].
  destruct (negb _); [cbn; split; by repeat constructor|].
  destruct (List.find _ _); [apply file_answer_ordinary|].
  unfold listing_answer. destruct (listdir fs _); [|apply error_answer_ordinary].
  cbn; split; by repeat constructor.
Qed.

Lemma answer_of_ordinary a d ans :
  answer_of L guess sys fs a d = Some ans →
  Forall ordinary (ans_fields ans) ∧ heads (ans_payload ans) = [].
Proof.
  destruct a as [| | rl v code msg ex | r]; cbn; intros H; simplify_eq.
  - apply error_answer_ordinary.
  - apply error_answer_ordinary.
  - destruct (String.eqb (request.command r) "GET").
    { simplify_eq. pose proof (head_answer_ordinary r d) as [H1 H2].
      destruct (head_answer L guess sys fs r d) as [ans' [f|]]; cbn in *; [|done].
      split; [done|]. unfold heads in *. rewrite omap_app, H2.
      by destruct (String.eqb f ""). }
    destruct (String.eqb (request.command r) "HEAD"); simplify_eq.
    + apply head_answer_ordinary.
    + apply error_answer_ordinary.
Qed.

End answer_facts.

(** The header blocks of a connection: one, unless nothing arrived or the
    request was HTTP/0.9. *)
Lemma heads_handle cls L sys fs getcwd a :
  regular cls L →
  heads (wfile (handle cls sys fs getcwd a))
  = match answer_of L (virtual.guess_type cls) sys fs a
            (default getcwd (virtual.init_directory cls)) with
    | Some ans =>
        if ver (request_of a) then [header_block sys ans] else []
    | None => []
    end.
Proof.
  intros Hreg. rewrite (handle_answer cls L Hreg). cbn zeta.
  destruct (answer_of _ _ _ _ _ _) as [ans|] eqn:E; [|done].
  apply answer_of_ordinary in E as [_ E]. cbn [render wfile mk req _headers_buffer].
  unfold heads in *. rewrite !omap_app, E.
  by destruct (ver (request_of a)).
Qed.

Lemma fixed_headers_handle cls L sys fs getcwd a :
  regular cls L →
  Forall fixed_headers (heads (wfile (handle cls sys fs getcwd a))).
Proof.
  intros Hreg. rewrite (heads_handle cls L) by done.
  destruct (answer_of _ _ _ _ _ _) as [ans|] eqn:E; [|done].
  destruct (ver (request_of a)); [|done].
  apply answer_of_ordinary in E as [E _].
  constructor; [|done]. by apply fixed_headers_block.
Qed.

Lemma regular_serving s sys __file__ p :
  regular (serving_class s sys __file__ p) (log_line s sys).
Proof.
  destruct s.
  - exact (regular_handler_of simple_server_py "" sys _).
  - exact (regular_handler_of server_py _ sys _).
Qed.


(** ** Strings *)

Lemma append_cons a s t : String a s +:+ t = String a (s +:+ t).
Proof. reflexivity. Qed.

Lemma append_nil t : "" +:+ t = t.
Proof. reflexivity. Qed.

Lemma append_empty s : s +:+ "" = s.
Proof. induction s as [|a s IH]; [done|]. by rewrite append_cons, IH. Qed.

Lemma length_append s t :
  String.length (s +:+ t) = (String.length s + String.length t)%nat.
Proof.
  induction s as [|a s IH]; [done|].
  rewrite append_cons. cbn. by rewrite IH.
Qed.

Lemma take_drop n s : Str.take n s +:+ Str.drop n s = s.
Proof.
  revert s; induction n as [|n IH]; intros [|a s]; cbn; try done.
  by rewrite append_cons, IH.
Qed.

Lemma endswith_longer b e t :
  (String.length t ≤ String.length e)%nat →
  Str.endswith (b +:+ e) t = Str.endswith e t.
Proof.
  intros Hlen. induction b as [|a b IH]; [done|].
  rewrite append_cons. cbn -[String.eqb]. rewrite IH.
  destruct (String.eqb (String a (b +:+ e)) t) eqn:E; [|done].
  apply String.eqb_eq in E. apply (f_equal String.length) in E.
  cbn in E. rewrite length_append in E. lia.
Qed.

Lemma startswith_append s t u :
  Str.startswith s u = true → Str.startswith (s +:+ t) u = true.
Proof.
  revert s; induction u as [|c u IH]; intros s.
  - intros _. by destruct (s +:+ t).
  - destruct s as [|a s]; cbn [Str.startswith]; [done|].
    intros [Hc H]%andb_prop. rewrite append_cons. cbn [Str.startswith].
    by rewrite Hc, IH.
Qed.

Lemma splitext_append p : fst (posixpath.splitext p) +:+ snd (posixpath.splitext p) = p.
Proof.
  unfold posixpath.splitext.
  destruct (Str.rfind posixpath.extsep p) as [dotIndex|]; cbn.
  - destruct (_ && _); cbn; [apply take_drop|apply append_empty].
  - apply append_empty.
Qed.

(** ** Content types *)

Lemma splittype_absolute p :
  Str.startswith p "/" = true → urllib._splittype p = (None, p).
Proof.
  destruct p as [|a p]; [done|]. cbn. unfold urllib._splittype. cbn.
  destruct (Str.chr_eqb a "/"); [done|discriminate].
Qed.

(** The inherited [guess_type] on a table that knows [.css]. *)
Lemma inherited_guess_css tm path :
  Str.startswith path "/" = true →
  snd (posixpath.splitext path) = ".css" →
  tm !! ".css" = Some "text/css" →
  SimpleHTTPRequestHandler.guess_type tm path = "text/css".
Proof.
  intros Habs Hext Htm.
  unfold SimpleHTTPRequestHandler.guess_type, mimetypes.guess_type.
  rewrite splittype_absolute by done.
  destruct (posixpath.splitext path) as [base ext]. cbn in Hext. subst ext.
  change (SimpleHTTPRequestHandler.extensions_map !! ".css") with (@None string).
  change (Str.lower ".css") with ".css".
  change (SimpleHTTPRequestHandler.extensions_map !! ".css") with (@None string).
  rewrite bool_decide_eq_false_2 by done.
  unfold mimetypes.suffix_loop.
  change (Str.lower ".css") with ".css".
  change (mimetypes.suffix_map !! ".css") with (@None string).
  cbv beta iota.
  change (mimetypes.encodings_map !! ".css") with (@None string).
  cbv beta iota.
  change (Str.lower ".css") with ".css".
  by rewrite Htm.
Qed.

Lemma css_is_not_js path :
  snd (posixpath.splitext path) = ".css" → Str.endswith path ".js" = false.
Proof.
  intros H. rewrite <- (splitext_append path), H.
  by rewrite endswith_longer by (cbn; lia).
Qed.

(** ** The suffix loop of [mimetypes.guess_type] ends after one round *)

Lemma rfind_append_some c s t i :
  Str.rfind c t = Some i →
  Str.rfind c (s +:+ t) = Some (String.length s + i)%nat.
Proof.
  intros H. induction s as [|a s IH]; [done|].
  rewrite append_cons. cbn [Str.rfind String.length]. by rewrite IH.
Qed.

Lemma drop_append_length s t n :
  Str.drop (String.length s + n) (s +:+ t) = Str.drop n t.
Proof. induction s as [|a s IH]; [done|]. by rewrite append_cons. Qed.

Lemma splitext_ext p :
  snd (posixpath.splitext p) = ""
  ∨ ∃ i, Str.rfind "." p = Some i ∧ snd (posixpath.splitext p) = Str.drop i p.
Proof.
  unfold posixpath.splitext.
  destruct (Str.rfind posixpath.extsep p) as [dotIndex|] eqn:E; [|by left].
  destruct (_ && _); [|by left]. right. by exists dotIndex.
Qed.

Lemma suffix_map_values k long :
  mimetypes.suffix_map !! k = Some long →
  long ∈ [".svg.gz"; ".tar.gz"; ".tar.bz2"; ".tar.xz"].
Proof.
  unfold mimetypes.suffix_map.
  rewrite !lookup_insert_Some, lookup_empty, !elem_of_cons.
  intuition (subst; auto; discriminate).
Qed.

Lemma suffix_loop_total base ext : is_Some (mimetypes.suffix_loop 1 base ext).
Proof.
  unfold mimetypes.suffix_loop.
  destruct (mimetypes.suffix_map !! Str.lower ext) as [long|] eqn:E; [|by eexists].
  apply suffix_map_values in E.
  destruct (posixpath.splitext (base +:+ long)) as [base' ext'] eqn:S.
  assert (Hext : mimetypes.suffix_map !! Str.lower ext' = None);
    [|rewrite Hext; by eexists].
  replace ext' with (snd (posixpath.splitext (base +:+ long))) by (by rewrite S).
  destruct (splitext_ext (base +:+ long)) as [->|(i & Hi & ->)]; [done|].
  assert (Hdot : Str.rfind "." long = Some 4%nat
                 ∧ mimetypes.suffix_map !! Str.lower (Str.drop 4 long) = None).
  { revert E. rewrite !elem_of_cons, elem_of_nil.
    intros [->|[->|[->|[->|[]]]]]; by split. }
  destruct Hdot as [Hdot Hnone].
  rewrite (rfind_append_some _ base _ _ Hdot) in Hi. injection Hi as <-.
  by rewrite drop_append_length.
Qed.

(** ** Components of a path *)

Lemma split_no_sep c s w : w ∈ Str.split c s → Str.contains c w = false.
Proof.
  revert w. induction s as [|a s IH]; intros w; cbn [Str.split].
  - by intros ->%list_elem_of_singleton.
  - destruct (Str.chr_eqb a c) eqn:E.
    + intros [->|H]%elem_of_cons; [done|by apply IH].
    + destruct (Str.split c s) as [|w0 ws].
      * intros ->%list_elem_of_singleton. cbn. by rewrite E.
      * intros [->|H]%elem_of_cons.
        -- cbn. rewrite E. apply IH. by left.
        -- apply IH. by right.
Qed.

Lemma no_sep_relative w :
  Str.contains "/" w = false → Str.startswith w "/" = false.
Proof. destruct w as [|a w]; cbn; [done|]. by intros [-> _]%orb_false_elim. Qed.

(** ** A request path that ends in [.js] resolves to a path that does *)

Lemma append_assoc s t u : (s +:+ t) +:+ u = s +:+ t +:+ u.
Proof. induction s as [|a s IH]; [done|]. by rewrite !append_cons, IH. Qed.

Lemma before_absent c s : Str.contains c s = false → Str.before c s = s.
Proof.
  induction s as [|a s IH]; cbn; [done|].
  intros [-> H]%orb_false_elim. by rewrite IH.
Qed.

Lemma rev_onto_append s t acc :
  Str.rev_onto (s +:+ t) acc = Str.rev_onto t (Str.rev_onto s acc).
Proof.
  revert acc. induction s as [|a s IH]; intros acc; [done|].
  rewrite append_cons. cbn. apply IH.
Qed.

Lemma rev_onto_rev_onto s acc b :
  Str.rev_onto (Str.rev_onto s acc) b = Str.rev_onto acc (s +:+ b).
Proof.
  revert acc. induction s as [|a s IH]; intros acc; [done|].
  cbn [Str.rev_onto]. rewrite IH. by rewrite append_cons.
Qed.

Lemma rstrip_js s : Str.rstrip (s +:+ ".js") = s +:+ ".js".
Proof.
  unfold Str.rstrip. rewrite rev_onto_append.
  change (Str.rev_onto ".js" ?x) with (String "s" (String "j" (String "." x))).
  change (Str.lstrip (String "s" ?x)) with (String "s" x).
  change (Str.rev_onto (String "s" (String "j" (String "." ?x))) "")
    with (Str.rev_onto x ".js").
  by rewrite rev_onto_rev_onto.
Qed.

Lemma unquote_js s : urllib.unquote (s +:+ ".js") = urllib.unquote s +:+ ".js".
Proof.
  remember (String.length s) as n eqn:Hn.
  revert s Hn. induction (lt_wf n) as [n _ IH]. intros s ->.
  destruct s as [|a s]; [done|].
  rewrite append_cons. cbn [urllib.unquote].
  destruct (Str.chr_eqb a "%") eqn:Ea.
  2: { rewrite append_cons. f_equal. apply (IH (String.length s)); [cbn; lia|done]. }
  destruct s as [|h [|l rest]].
  - done.
  - rewrite append_cons, append_nil.
    change (urllib.hexdig ".") with (@None N).
    rewrite <- (append_nil ".js"), <- append_cons.
    rewrite (IH 1%nat) by (cbn; lia || done).
    destruct (urllib.hexdig h); by rewrite append_cons.
  - rewrite !append_cons.
    destruct (urllib.hexdig h), (urllib.hexdig l);
      rewrite ?append_cons; f_equal;
      rewrite <- ?append_cons;
      first [ apply (IH (String.length rest)); [cbn; lia|done]
            | apply (IH (String.length (String h (String l rest))));
              [cbn; lia|done] ].
Qed.

Lemma split_absent c t : Str.contains c t = false → Str.split c t = [t].
Proof.
  induction t as [|a t IH]; cbn; [done|].
  intros [-> H]%orb_false_elim. by rewrite IH.
Qed.

Lemma split_append c s t :
  Str.contains c t = false → ∃ ws w, Str.split c (s +:+ t) = ws ++ [w +:+ t].
Proof.
  intros Ht. induction s as [|a s (ws & w & IH)].
  - exists [], "". by rewrite split_absent.
  - rewrite append_cons. cbn [Str.split]. rewrite IH.
    destruct (Str.chr_eqb a c).
    + by exists ("" :: ws), w.
    + destruct ws as [|w0 ws]; cbn.
      * by exists [], (String a w).
      * by exists (String a w0 :: ws), w.
Qed.

Lemma normpath_comps_append n l1 l2 st :
  posixpath.normpath_comps n (l1 ++ l2) st
  = posixpath.normpath_comps n l2 (posixpath.normpath_comps n l1 st).
Proof.
  revert st. induction l1 as [|x l1 IH]; intros st; [done|].
  cbn [app posixpath.normpath_comps].
  destruct (_ || _); [apply IH|].
  destruct (_ || _ || _); [apply IH|].
  destruct st; apply IH.
Qed.

Lemma join_snoc sep l x : ∃ pre, Str.join sep (l ++ [x]) = pre +:+ x.
Proof.
  induction l as [|a l (pre & IH)]; [by exists ""|].
  exists (a +:+ sep +:+ pre).
  change ((a :: l) ++ [x]) with (a :: (l ++ [x])). cbn [Str.join].
  rewrite IH. destruct (l ++ [x]) eqn:E.
  - by destruct l.
  - by rewrite !append_assoc.
Qed.

Lemma js_component w :
  w +:+ ".js" ≠ "" ∧ w +:+ ".js" ≠ "." ∧ w +:+ ".js" ≠ "..".
Proof.
  repeat split; intros H%(f_equal String.length);
    rewrite length_append in H; cbn in H; lia.
Qed.

Lemma normpath_js u : ∃ q, posixpath.normpath (u +:+ ".js") = q +:+ ".js".
Proof.
  unfold posixpath.normpath.
  destruct (js_component u) as (Hne & _ & _).
  rewrite (proj2 (String.eqb_neq _ _) Hne).
  unfold posixpath.sep.
  destruct (split_append "/" u ".js" eq_refl) as (ws & w & ->).
  rewrite normpath_comps_append.
  destruct (js_component w) as (H1 & H2 & H3).
  cbn [posixpath.normpath_comps].
  rewrite (proj2 (String.eqb_neq _ _) H1).
  unfold posixpath.curdir, posixpath.pardir.
  rewrite (proj2 (String.eqb_neq _ _) H2), (proj2 (String.eqb_neq _ _) H3).
  cbn [orb negb rev].
  destruct (join_snoc "/" (rev (posixpath.normpath_comps
    (if Str.startswith (u +:+ ".js") "/"
     then if Str.startswith (u +:+ ".js") "//"
             && negb (Str.startswith (u +:+ ".js") "///")
          then 2%nat else 1%nat
     else 0%nat) ws [])) (w +:+ ".js")) as (pre & ->).
  match goal with
  | |- ∃ q, (if String.eqb ?res "" then _ else _) = _ =>
      assert (∃ q, res = q +:+ ".js") as (q & Hq)
  end.
  { destruct (if Str.startswith (u +:+ ".js") "/" then _ else _) as [|[|k]].
    - exists (pre +:+ w). by rewrite append_assoc.
    - exists ("/" +:+ pre +:+ w). by rewrite !append_assoc.
    - exists ("//" +:+ pre +:+ w). by rewrite !append_assoc. }
  rewrite Hq. destruct (js_component q) as (Hq' & _ & _).
  rewrite (proj2 (String.eqb_neq _ _) Hq'). by exists q.
Qed.

Lemma rfind_absent c s : Str.contains c s = false → Str.rfind c s = None.
Proof.
  induction s as [|a s IH]; cbn; [done|].
  intros [-> H]%orb_false_elim. by rewrite IH.
Qed.

Lemma dirname_name w : Str.contains "/" w = false → posixpath.dirname w = "".
Proof.
  intros H. unfold posixpath.dirname, posixpath.sep.
  by rewrite (rfind_absent _ _ H).
Qed.

Lemma endswith_js s : Str.endswith (s +:+ ".js") ".js" = true.
Proof. by rewrite endswith_longer by (cbn; lia). Qed.

(** A request path without query or fragment that ends in [.js] resolves
    to a file path that ends in [.js]. *)
Lemma translate_path_js d s :
  Str.contains "?" s = false → Str.contains "#" s = false →
  Str.endswith (SimpleHTTPRequestHandler.translate_path d (s +:+ ".js")) ".js"
  = true.
Proof.
  intros Hq Hf. unfold SimpleHTTPRequestHandler.translate_path.
  assert (Hq' : Str.contains "?" (s +:+ ".js") = false).
  { clear Hf. induction s as [|a s IH]; [done|]. rewrite append_cons. cbn in *.
    apply orb_false_elim in Hq as [-> Hq]. by apply IH. }
  assert (Hf' : Str.contains "#" (s +:+ ".js") = false).
  { clear Hq Hq'. induction s as [|a s IH]; [done|]. rewrite append_cons. cbn in *.
    apply orb_false_elim in Hf as [-> Hf]. by apply IH. }
  rewrite (before_absent _ _ Hq'), (before_absent _ _ Hf').
  rewrite rstrip_js, (endswith_longer s ".js" "/") by (cbn; lia).
  change (Str.endswith ".js" "/") with false. cbv iota.
  rewrite unquote_js.
  destruct (normpath_js (urllib.unquote s)) as (q & ->).
  pose proof (split_no_sep "/" (q +:+ ".js")) as Hsep.
  destruct (split_append "/" q ".js" eq_refl) as (ws & w & E).
  rewrite E in *. rewrite filter_app, foldl_app.
  destruct (js_component w) as (H1 & H2 & H3).
  rewrite filter_cons, decide_True by done. rewrite filter_nil. cbn [foldl].
  rewrite dirname_name by (apply Hsep, elem_of_app; right; by left).
  unfold posixpath.curdir, posixpath.pardir.
  rewrite (proj2 (String.eqb_neq _ _) H2), (proj2 (String.eqb_neq _ _) H3).
  cbn [String.eqb negb orb].
  unfold posixpath.join.
  rewrite no_sep_relative by (apply Hsep, elem_of_app; right; by left).
  destruct (_ || _); rewrite <- ?append_assoc; apply endswith_js.
Qed.

Lemma value_inj c c' : value c = value c' → c = c'.
Proof. destruct c, c'; (reflexivity || discriminate). Qed.

Lemma content_type_block sys a :
  header_values "Content-Type" (header_block sys a)
  = header_values "Content-Type" (ans_fields a).
Proof. rewrite header_values_block. cbn. by rewrite app_nil_r. Qed.

Section file_answers.
Context (L : string → string) (guess : string → string)
        (sys : platform) (fs : filesystem).

Lemma with_file_head af :
  ans_code (with_file af) = ans_code af.1
  ∧ ans_reason (with_file af) = ans_reason af.1
  ∧ ans_fields (with_file af) = ans_fields af.1
  ∧ ans_log (with_file af) = ans_log af.1.
Proof. by destruct af as [a [f|]]. Qed.

Lemma head_answer_file r d :
  isfile fs (SimpleHTTPRequestHandler.translate_path d (request.path r)) = true →
  head_answer L guess sys fs r d
  = file_answer L guess sys fs r
      (SimpleHTTPRequestHandler.translate_path d (request.path r)).
Proof.
  unfold head_answer, isfile, isdir.
  by destruct (fs _).
Qed.

Lemma file_answer_ok r path :
  ans_code (file_answer L guess sys fs r path).1 = OK →
  header_values "Content-Type" (ans_fields (file_answer L guess sys fs r path).1)
  = [guess path].
Proof.
  unfold file_answer.
  destruct (Str.endswith path "/"); [done|].
  destruct (open fs path) as [[content st_mtime]|]; [|done].
  by destruct (not_modified r st_mtime).
Qed.

Lemma answer_of_file_ok r d ans :
  isfile fs (SimpleHTTPRequestHandler.translate_path d (request.path r)) = true →
  answer_of L guess sys fs (parsed r) d = Some ans →
  ans_code ans = OK →
  header_values "Content-Type" (ans_fields ans)
  = [guess (SimpleHTTPRequestHandler.translate_path d (request.path r))].
Proof.
  intros Hfile E Hok. cbn in E. rewrite head_answer_file in E by done.
  destruct (String.eqb (request.command r) "GET").
  { simplify_eq.
    destruct (with_file_head (file_answer L guess sys fs r
      (SimpleHTTPRequestHandler.translate_path d (request.path r))))
      as (Hc & _ & -> & _).
    rewrite Hc in Hok. by apply file_answer_ok. }
  destruct (String.eqb (request.command r) "HEAD"); simplify_eq.
  by apply file_answer_ok.
Qed.

End file_answers.

(** A 200 answer that serves a regular file names the type the class's
    [guess_type] gives for the path of the file. *)
Lemma content_type_200 cls L sys fs getcwd r :
  regular cls L →
  let path :=
    SimpleHTTPRequestHandler.translate_path
      (default getcwd (virtual.init_directory cls)) (request.path r) in
  isfile fs path = true →
  Forall (λ ls, statuses ls = [200%N] →
                header_values "Content-Type" ls = [virtual.guess_type cls path])
         (heads (wfile (handle cls sys fs getcwd (parsed r)))).
Proof.
  intros Hreg path Hfile. rewrite (heads_handle cls L) by done.
  destruct (answer_of _ _ _ _ _ _) as [ans|] eqn:E; [|done].
  destruct (ver _); [|done].
  constructor; [|done]. intros Hst.
  pose proof (answer_of_ordinary _ _ _ _ _ _ _ E) as [Hord _].
  rewrite statuses_block in Hst by done.
  injection Hst as Hst. apply (value_inj _ OK) in Hst.
  rewrite content_type_block.
  by eapply answer_of_file_ok.
Qed.

Lemma serving_directory s sys __file__ p :
  default (serving_cwd s __file__ p)
          (virtual.init_directory (serving_class s sys __file__ p))
  = base_directory (cwd p) __file__.
Proof. by destruct s. Qed.

(** C2, as amended.  Take a request that names a regular file under the
    directory of the script.  From [server.py], every 200 answer to it
    whose file path ends in [.js] has Content-Type
    [application/javascript], whatever the MIME tables of the host; from
    [simple-server.py], which overrides nothing, it has whatever the
    inherited [guess_type] finds in the tables of the host.  The file path
    ends in [.js] whenever the request path does and has neither query
    nor fragment. *)
Theorem js_content_type sys fs __file__ p r :
  isfile fs (resolved (cwd p) __file__ r) = true →
  (Str.endswith (resolved (cwd p) __file__ r) ".js" = true →
   Forall (λ ls, statuses ls = [200%N] →
                 header_values "Content-Type" ls = ["application/javascript"])
          (heads (reply_to server_py sys fs __file__ p (parsed r))))
  ∧ Forall (λ ls, statuses ls = [200%N] →
                  header_values "Content-Type" ls
                  = [SimpleHTTPRequestHandler.guess_type (types_map p)
                       (resolved (cwd p) __file__ r)])
           (heads (reply_to simple_server_py sys fs __file__ p (parsed r)))
  ∧ (∀ stem, request.path r = stem +:+ ".js" →
             Str.contains "?" stem = false → Str.contains "#" stem = false →
             Str.endswith (resolved (cwd p) __file__ r) ".js" = true).
Proof.
  intros Hfile. split; [|split].
  3: { intros stem Hpath Hq Hf. unfold resolved. rewrite Hpath.
       by apply translate_path_js. }
  - intros Hjs.
    pose proof (content_type_200 _ _ sys fs (serving_cwd server_py __file__ p) r
                  (regular_serving server_py sys __file__ p)) as H.
    cbn zeta in H. rewrite serving_directory in H. specialize (H Hfile).
    eapply Forall_impl; [exact H|]. intros ls Hls Hst. rewrite (Hls Hst).
    cbn. unfold CustomHTTPRequestHandler.guess_type.
    fold (resolved (cwd p) __file__ r). by rewrite Hjs.
  - pose proof (content_type_200 _ _ sys fs (serving_cwd simple_server_py __file__ p) r
                  (regular_serving simple_server_py sys __file__ p)) as H.
    cbn zeta in H. rewrite serving_directory in H. exact (H Hfile).
Qed.

(** C2 fails as stated.  On a host whose MIME table maps [.js] to
    [text/plain], [simple-server.py] serves [/app.js] with status 200 and
    Content-Type [text/plain]; and a request for a missing [.js] file gets,
    from [server.py], a 404 answer with Content-Type
    [text/html;charset=utf-8]. *)
Lemma js_content_type_counterexample :
  map (λ w, map (λ ls, (statuses ls, header_values "Content-Type" ls)) (heads w))
      (replies (run simple_server_py Demo.host Demo.tree "/srv/www/simple-server.py"
                  (Demo.session [Demo.GET "/app.js"])
                  Demo.plain_text_host))
  = [[([200%N], ["text/plain"])]]
  ∧ map (λ w, map (λ ls, (statuses ls, header_values "Content-Type" ls)) (heads w))
        (replies (run server_py Demo.host Demo.tree "/srv/www/server.py"
                    (Demo.session [Demo.GET "/missing.js"]) (Demo.boot ∅)))
    = [[([404%N], ["text/html;charset=utf-8"])]].
Proof. split; vm_compute; reflexivity. Qed.

Lemma js_content_type_witness :
  isfile Demo.tree
    (resolved (cwd Demo.plain_text_host) "/srv/www/server.py"
       (Demo.request "GET" "/app.js")) = true
  ∧ (Str.endswith
       (resolved (cwd Demo.plain_text_host) "/srv/www/server.py"
          (Demo.request "GET" "/app.js")) ".js" = true
     ∧ Forall (λ ls, statuses ls = [200%N] →
                     header_values "Content-Type" ls = ["application/javascript"])
              (heads (reply_to server_py Demo.host Demo.tree "/srv/www/server.py"
                        Demo.plain_text_host (Demo.GET "/app.js"))))
  ∧ Forall (λ ls, statuses ls = [200%N] →
                  header_values "Content-Type" ls
                  = [SimpleHTTPRequestHandler.guess_type
                       (types_map Demo.plain_text_host)
                       (resolved (cwd Demo.plain_text_host) "/srv/www/server.py"
                          (Demo.request "GET" "/app.js"))])
           (heads (reply_to simple_server_py Demo.host Demo.tree
                     "/srv/www/server.py" Demo.plain_text_host (Demo.GET "/app.js")))
  ∧ (∀ stem, request.path (Demo.request "GET" "/app.js") = stem +:+ ".js" →
             Str.contains "?" stem = false → Str.contains "#" stem = false →
             Str.endswith
               (resolved (cwd Demo.plain_text_host) "/srv/www/server.py"
                  (Demo.request "GET" "/app.js")) ".js" = true).
Proof.
  assert (Hfile : isfile Demo.tree
    (resolved (cwd Demo.plain_text_host) "/srv/www/server.py"
       (Demo.request "GET" "/app.js")) = true) by (vm_compute; reflexivity).
  assert (Hjs : Str.endswith
    (resolved (cwd Demo.plain_text_host) "/srv/www/server.py"
       (Demo.request "GET" "/app.js")) ".js" = true) by (vm_compute; reflexivity).
  destruct (js_content_type Demo.host Demo.tree "/srv/www/server.py"
              Demo.plain_text_host (Demo.request "GET" "/app.js") Hfile)
    as (H1 & H2 & H3).
  split; [exact Hfile|]. split; [|split; [exact H2|exact H3]].
  split; [exact Hjs|exact (H1 Hjs)].
Defined.

(** The path a request resolves to is absolute when the directory is. *)
Lemma join_absolute a w :
  Str.startswith a "/" = true → Str.startswith (posixpath.join a w) "/" = true.
Proof.
  intros H. unfold posixpath.join.
  destruct (Str.startswith w "/") eqn:E; [done|].
  destruct (_ || _); by apply startswith_append.
Qed.

Lemma translate_path_absolute d path :
  Str.startswith d "/" = true →
  Str.startswith (SimpleHTTPRequestHandler.translate_path d path) "/" = true.
Proof.
  intros H. unfold SimpleHTTPRequestHandler.translate_path.
  match goal with |- context [foldl ?f d ?ws] =>
    assert (Str.startswith (foldl f d ws) "/" = true) as Hf
  end.
  { generalize (filter (λ word, word ≠ "")
      (Str.split "/" (posixpath.normpath
         (urllib.unquote (Str.before "#" (Str.before "?" path)))))).
    intros ws. revert d H. induction ws as [|w ws IH]; intros d H; cbn; [done|].
    apply IH. destruct (_ || _); [done|by apply join_absolute]. }
  destruct (Str.endswith _ "/"); [by apply startswith_append|done].
Qed.

Lemma server_py_registers_css p :
  serving_types server_py p !! ".css" = Some "text/css".
Proof. apply lookup_insert_eq. Qed.

(** C3, as amended.  Take a request that names a regular file whose name
    has the extension [.css] ([posixpath.splitext]: a name that is all
    leading dots, like [.css] itself, has none), under the absolute
    directory of the script.  Every 200 answer to it has Content-Type
    [text/css]: from [server.py] always, since it registers the type at
    start-up; from [simple-server.py], which registers nothing, when the
    MIME table of the host maps [.css] to [text/css]. *)
Theorem css_content_type s sys fs __file__ p r :
  isfile fs (resolved (cwd p) __file__ r) = true →
  Str.startswith (base_directory (cwd p) __file__) "/" = true →
  snd (posixpath.splitext (resolved (cwd p) __file__ r)) = ".css" →
  s = server_py ∨ types_map p !! ".css" = Some "text/css" →
  Forall (λ ls, statuses ls = [200%N] →
                header_values "Content-Type" ls = ["text/css"])
         (heads (reply_to s sys fs __file__ p (parsed r))).
Proof.
  intros Hfile Habs Hext Htm.
  pose proof (content_type_200 _ _ sys fs (serving_cwd s __file__ p) r
                (regular_serving s sys __file__ p)) as H.
  cbn zeta in H. rewrite serving_directory in H. specialize (H Hfile).
  eapply Forall_impl; [exact H|]. intros ls Hls Hst. rewrite (Hls Hst).
  f_equal. fold (resolved (cwd p) __file__ r).
  assert (Hp : Str.startswith (resolved (cwd p) __file__ r) "/" = true)
    by by apply translate_path_absolute.
  assert (Ht : serving_types s p !! ".css" = Some "text/css").
  { destruct Htm as [->| Htm]; [apply server_py_registers_css|].
    destruct s; [done|apply server_py_registers_css]. }
  destruct s; cbn.
  - by apply inherited_guess_css.
  - unfold CustomHTTPRequestHandler.guess_type.
    rewrite css_is_not_js by done. by apply inherited_guess_css.
Qed.

(** C3 fails as stated.  On a host whose MIME table maps [.css] to
    [text/plain], [simple-server.py] serves [/style.css] with that type;
    and [server.py] serves the file named [.css] as
    [application/octet-stream]. *)
Lemma css_content_type_counterexample :
  map (λ w, map (λ ls, (statuses ls, header_values "Content-Type" ls)) (heads w))
      (replies (run simple_server_py Demo.host Demo.tree "/srv/www/simple-server.py"
                  (Demo.session [Demo.GET "/style.css"])
                  Demo.plain_text_host))
  = [[([200%N], ["text/plain"])]]
  ∧ map (λ w, map (λ ls, (statuses ls, header_values "Content-Type" ls)) (heads w))
        (replies (run server_py Demo.host Demo.tree "/srv/www/server.py"
                    (Demo.session [Demo.GET "/.css"]) (Demo.boot ∅)))
    = [[([200%N], ["application/octet-stream"])]].
Proof. split; vm_compute; reflexivity. Qed.

Lemma css_content_type_witness :
  isfile Demo.tree
    (resolved (cwd Demo.plain_text_host) "/srv/www/server.py"
       (Demo.request "GET" "/style.css")) = true
  ∧ Str.startswith
      (base_directory (cwd Demo.plain_text_host) "/srv/www/server.py") "/" = true
  ∧ snd (posixpath.splitext
           (resolved (cwd Demo.plain_text_host) "/srv/www/server.py"
              (Demo.request "GET" "/style.css"))) = ".css"
  ∧ (server_py = server_py
     ∨ types_map Demo.plain_text_host !! ".css" = Some "text/css")
  ∧ Forall (λ ls, statuses ls = [200%N] →
                  header_values "Content-Type" ls = ["text/css"])
           (heads (reply_to server_py Demo.host Demo.tree "/srv/www/server.py"
                     Demo.plain_text_host (Demo.GET "/style.css"))).
Proof.
  assert (H1 : isfile Demo.tree
    (resolved (cwd Demo.plain_text_host) "/srv/www/server.py"
       (Demo.request "GET" "/style.css")) = true) by (vm_compute; reflexivity).
  assert (H2 : Str.startswith
    (base_directory (cwd Demo.plain_text_host) "/srv/www/server.py") "/" = true)
    by (vm_compute; reflexivity).
  assert (H3 : snd (posixpath.splitext
    (resolved (cwd Demo.plain_text_host) "/srv/www/server.py"
       (Demo.request "GET" "/style.css"))) = ".css") by (vm_compute; reflexivity).
  assert (H4 : server_py = server_py
               ∨ types_map Demo.plain_text_host !! ".css" = Some "text/css")
    by (left; reflexivity).
  repeat split; try assumption.
  exact (css_content_type server_py Demo.host Demo.tree "/srv/www/server.py"
           Demo.plain_text_host (Demo.request "GET" "/style.css") H1 H2 H3 H4).
Defined.

(** What the two scripts answer for [/app.js] and [/style.css] on that
    host. *)
Example served_types :
  map (λ w, map (λ ls, (statuses ls, header_values "Content-Type" ls)) (heads w))
      (replies (run server_py Demo.host Demo.tree "/srv/www/server.py"
                  (Demo.session [Demo.GET "/app.js"; Demo.GET "/style.css"])
                  Demo.plain_text_host))
  = [[([200%N], ["application/javascript"])]; [([200%N], ["text/css"])]].
Proof. vm_compute; reflexivity. Qed.

(** ** The scripts from start to exit *)

Lemma last_snoc2 {A} (l : list A) a b : last (l ++ [a; b]) = Some b.
Proof.
  replace (l ++ [a; b]) with ((l ++ [a]) ++ [b]) by (by rewrite <- app_assoc).
  apply last_snoc.
Qed.

Lemma last_print s p : last (sys_stdout (print s p)) = Some (s +:+ LF).
Proof. cbn. apply last_snoc. Qed.

(** Serving prints nothing and leaves the working directory alone. *)
Lemma serve_forever_process cls sys fs conns p :
  cwd (serve_forever cls sys fs conns p).1 = cwd p
  ∧ sys_stdout (serve_forever cls sys fs conns p).1 = sys_stdout p.
Proof. destruct (serve_forever_spec cls sys fs conns p) as (_ & ? & _ & ? & _); done. Qed.

(** C5.  When the port was bound and Ctrl-C ends the serving loop, either
    script prints its stop message as its last line of output and the
    process exits with status 0. *)
Theorem interrupt_exits_cleanly s sys fs __file__ ev p :
  bind_error ev = None →
  stop ev = KeyboardInterrupt →
  last (sys_stdout (final (run s sys fs __file__ ev p))) = Some (stop_message s)
  ∧ ending (run s sys fs __file__ ev p) = exited 0.
Proof.
  intros Hbind Hstop.
  destruct s; cbn; unfold simple_server.main, server.main; rewrite Hbind, Hstop;
    destruct (serve_forever _ _ _ _ _) as [q rs]; cbn;
    by rewrite last_snoc.
Qed.

Lemma interrupt_exits_cleanly_witness :
  bind_error (Demo.session [Demo.GET "/index.html"]) = None
  ∧ stop (Demo.session [Demo.GET "/index.html"]) = KeyboardInterrupt
  ∧ last (sys_stdout (final (run server_py Demo.host Demo.tree "/srv/www/server.py"
                               (Demo.session [Demo.GET "/index.html"])
                               (Demo.boot ∅))))
    = Some (stop_message server_py)
  ∧ ending (run server_py Demo.host Demo.tree "/srv/www/server.py"
              (Demo.session [Demo.GET "/index.html"]) (Demo.boot ∅))
    = exited 0.
Proof.
  split; [reflexivity|]. split; [reflexivity|].
  apply (interrupt_exits_cleanly server_py Demo.host Demo.tree "/srv/www/server.py"
           (Demo.session [Demo.GET "/index.html"]) (Demo.boot ∅));
    reflexivity.
Defined.

(** C4 fails as stated.  With the port taken, [simple-server.py] reports
    the error on its standard output and then ends like any script that
    ran to its last line: with status 0. *)
Lemma startup_error_counterexample :
  last (sys_stdout (final (run simple_server_py Demo.host Demo.tree
                             "/srv/www/simple-server.py" Demo.port_taken
                             (Demo.boot ∅))))
  = Some ("Error starting server: [Errno 98] Address already in use" +:+ LF)
  ∧ ending (run simple_server_py Demo.host Demo.tree "/srv/www/simple-server.py"
              Demo.port_taken (Demo.boot ∅))
    = exited 0.
Proof. split; vm_compute; reflexivity. Qed.

(** C4, as amended.  When binding the port raises an ordinary exception,
    nothing is served, and: [simple-server.py] catches it, prints
    [Error starting server: <message>] on standard output and exits with
    status 0; [server.py] does not catch it, so the interpreter writes the
    traceback, ending in [<class>: <message>], on standard error and exits
    with status 1. *)
Theorem startup_error_report sys fs __file__ ev p class_name message :
  bind_error ev = Some (Error class_name message) →
  (last (sys_stdout (final (run simple_server_py sys fs __file__ ev p)))
   = Some ("Error starting server: " +:+ message +:+ LF)
   ∧ sys_stderr (final (run simple_server_py sys fs __file__ ev p)) = sys_stderr p
   ∧ replies (run simple_server_py sys fs __file__ ev p) = []
   ∧ ending (run simple_server_py sys fs __file__ ev p) = exited 0)
  ∧ (last (sys_stderr (final (run server_py sys fs __file__ ev p)))
     = Some (class_name +:+ ": " +:+ message +:+ LF)
     ∧ last (sys_stdout (final (run server_py sys fs __file__ ev p)))
       = Some ("Press Ctrl+C to stop the server" +:+ LF)
     ∧ replies (run server_py sys fs __file__ ev p) = []
     ∧ ending (run server_py sys fs __file__ ev p) = exited 1).
Proof.
  intros Hbind. cbn. unfold simple_server.main, server.main. rewrite Hbind. cbn.
  repeat split; try reflexivity; try apply last_snoc; try apply last_snoc2.
Qed.

Lemma startup_error_report_witness :
  bind_error Demo.port_taken
  = Some (Error "OSError" "[Errno 98] Address already in use")
  ∧ (last (sys_stdout (final (run simple_server_py Demo.host Demo.tree
                                "/srv/www/simple-server.py" Demo.port_taken
                                (Demo.boot ∅))))
     = Some ("Error starting server: " +:+ "[Errno 98] Address already in use" +:+ LF)
     ∧ sys_stderr (final (run simple_server_py Demo.host Demo.tree
                            "/srv/www/simple-server.py" Demo.port_taken
                            (Demo.boot ∅)))
       = sys_stderr (Demo.boot ∅)
     ∧ replies (run simple_server_py Demo.host Demo.tree
                  "/srv/www/simple-server.py" Demo.port_taken (Demo.boot ∅)) = []
     ∧ ending (run simple_server_py Demo.host Demo.tree
                 "/srv/www/simple-server.py" Demo.port_taken (Demo.boot ∅))
       = exited 0)
  ∧ (last (sys_stderr (final (run server_py Demo.host Demo.tree
                                "/srv/www/simple-server.py" Demo.port_taken
                                (Demo.boot ∅))))
     = Some ("OSError" +:+ ": " +:+ "[Errno 98] Address already in use" +:+ LF)
     ∧ last (sys_stdout (final (run server_py Demo.host Demo.tree
                                  "/srv/www/simple-server.py" Demo.port_taken
                                  (Demo.boot ∅))))
       = Some ("Press Ctrl+C to stop the server" +:+ LF)
     ∧ replies (run server_py Demo.host Demo.tree
                  "/srv/www/simple-server.py" Demo.port_taken (Demo.boot ∅)) = []
     ∧ ending (run server_py Demo.host Demo.tree
                 "/srv/www/simple-server.py" Demo.port_taken (Demo.boot ∅))
       = exited 1).
Proof.
  split; [reflexivity|].
  apply (startup_error_report Demo.host Demo.tree "/srv/www/simple-server.py"
           Demo.port_taken (Demo.boot ∅)).
  reflexivity.
Defined.

Lemma directory_handle cls L sys fs getcwd a :
  regular cls L →
  directory (handle cls sys fs getcwd a)
  = default getcwd (virtual.init_directory cls).
Proof.
  intros Hreg. rewrite (handle_answer cls L Hreg). cbn zeta.
  by destruct (answer_of _ _ _ _ _ _).
Qed.

(** C9.  [simple-server.py] leaves the process in the directory of the
    script, and each of its handlers resolves files against the working
    directory of the moment; [server.py] leaves the working directory as it
    found it, and its handlers resolve files against the [DIRECTORY] they
    are given, wherever the process stands. *)
Theorem working_directory sys fs __file__ ev p :
  cwd (final (run simple_server_py sys fs __file__ ev p))
  = simple_server.DIRECTORY (cwd p) __file__
  ∧ (∀ types getcwd a,
       directory (handle (CORSRequestHandler.class sys types) sys fs getcwd a)
       = getcwd)
  ∧ replies (run simple_server_py sys fs __file__ ev p)
    = match bind_error ev with
      | None =>
          map (λ a, wfile (handle (CORSRequestHandler.class sys (types_map p))
                             sys fs (simple_server.DIRECTORY (cwd p) __file__) a))
              (traffic ev)
      | Some _ => []
      end
  ∧ cwd (final (run server_py sys fs __file__ ev p)) = cwd p
  ∧ (∀ types DIRECTORY getcwd a,
       directory (handle (CustomHTTPRequestHandler.class DIRECTORY sys types)
                    sys fs getcwd a)
       = DIRECTORY).
Proof.
  split; [|split; [|split; [|split]]].
  - cbn. unfold simple_server.main.
    destruct (bind_error ev) as [[|c m]|]; [done..|].
    match goal with |- context [serve_forever ?c ?y ?f ?t ?q] =>
      pose proof (serve_forever_process c y f t q) as [H _];
      destruct (serve_forever c y f t q) as [p' rs] end.
    cbn in H. by destruct (stop ev).
  - intros types getcwd a.
    by rewrite (directory_handle _ _ _ _ _ _
                  (regular_handler_of simple_server_py "" sys types)).
  - apply (run_replies simple_server_py).
  - cbn. unfold server.main.
    destruct (bind_error ev) as [[|c m]|]; [done..|].
    match goal with |- context [serve_forever ?c ?y ?f ?t ?q] =>
      pose proof (serve_forever_process c y f t q) as [H _];
      destruct (serve_forever c y f t q) as [p' rs] end.
    cbn in H. by destruct (stop ev).
  - intros types D getcwd a.
    by rewrite (directory_handle _ _ _ _ _ _
                  (regular_handler_of server_py D sys types)).
Qed.

(** The same request, for a process standing in two different places. *)
Example working_directory_matters :
  wfile (handle (CORSRequestHandler.class Demo.host ∅) Demo.host Demo.tree
           "/srv/www" (Demo.GET "/index.html"))
  ≠ wfile (handle (CORSRequestHandler.class Demo.host ∅) Demo.host Demo.tree
             "/home/dev" (Demo.GET "/index.html"))
  ∧ wfile (handle (CustomHTTPRequestHandler.class "/srv/www" Demo.host ∅)
             Demo.host Demo.tree "/srv/www" (Demo.GET "/index.html"))
    = wfile (handle (CustomHTTPRequestHandler.class "/srv/www" Demo.host ∅)
               Demo.host Demo.tree "/home/dev" (Demo.GET "/index.html")).
Proof. split; [vm_compute; discriminate|vm_compute; reflexivity]. Qed.

(** ** Files that cannot be read *)

Lemma file_answer_unreadable L guess sys fs r path content st_mtime :
  fs path = RegularFile false content st_mtime →
  file_answer L guess sys fs r path
  = (error_answer L r NOT_FOUND (Some "File not found") None, None).
Proof.
  intros H. unfold file_answer, open. rewrite H.
  by destruct (Str.endswith path "/").
Qed.

Lemma unreadable_handle cls L sys fs getcwd r content st_mtime :
  regular cls L →
  request.command r = "GET" →
  fs (SimpleHTTPRequestHandler.translate_path
        (default getcwd (virtual.init_directory cls)) (request.path r))
  = RegularFile false content st_mtime →
  map statuses (heads (wfile (handle cls sys fs getcwd (parsed r))))
  = if ver r then [[404%N]] else [].
Proof.
  intros Hreg Hcmd Hfs. rewrite (heads_handle cls L) by done.
  cbn. rewrite Hcmd. cbn.
  rewrite head_answer_file by (unfold isfile; by rewrite Hfs).
  erewrite file_answer_unreadable by done. cbn [with_file].
  destruct (ver r); [|done].
  cbn [map]. rewrite statuses_block; [done|].
  apply error_answer_ordinary.
Qed.

(** C6 fails as stated.  [secret.txt] exists under the directory served
    and cannot be read; both scripts answer 404 for it, not 403. *)
Lemma unreadable_file_counterexample :
  Demo.tree "/srv/www/secret.txt" = RegularFile false "s3cret" 1000
  ∧ map (λ w, map statuses (heads w))
        (replies (run simple_server_py Demo.host Demo.tree
                    "/srv/www/simple-server.py"
                    (Demo.session [Demo.GET "/secret.txt"]) (Demo.boot ∅)))
    = [[[404%N]]]
  ∧ map (λ w, map statuses (heads w))
        (replies (run server_py Demo.host Demo.tree "/srv/www/server.py"
                    (Demo.session [Demo.GET "/secret.txt"]) (Demo.boot ∅)))
    = [[[404%N]]].
Proof. repeat split; vm_compute; reflexivity. Qed.

(** C6, as amended.  A GET request (not HTTP/0.9) that names a file which
    exists under the directory served but cannot be read is answered with
    status 404 by both scripts; and the server goes on: every connection
    of the run, before it or after it, gets its answer. *)
Theorem unreadable_file_is_not_found s sys fs __file__ ev p r content st_mtime :
  bind_error ev = None →
  request.command r = "GET" →
  request.request_version r ≠ "HTTP/0.9" →
  fs (resolved (cwd p) __file__ r) = RegularFile false content st_mtime →
  map statuses (heads (reply_to s sys fs __file__ p (parsed r))) = [[404%N]]
  ∧ replies (run s sys fs __file__ ev p)
    = map (reply_to s sys fs __file__ p) (traffic ev).
Proof.
  intros Hbind Hcmd Hver Hfs. split.
  - unfold reply_to.
    erewrite (unreadable_handle _ _ _ _ _ _ _ _ (regular_serving s sys __file__ p));
      [|done|rewrite serving_directory; exact Hfs].
    unfold ver. by rewrite bool_decide_eq_true_2.
  - by rewrite run_replies, Hbind.
Qed.

Lemma unreadable_file_is_not_found_witness :
  bind_error (Demo.session [Demo.GET "/secret.txt"; Demo.GET "/index.html"]) = None
  ∧ request.command (Demo.request "GET" "/secret.txt") = "GET"
  ∧ request.request_version (Demo.request "GET" "/secret.txt") ≠ "HTTP/0.9"
  ∧ Demo.tree (resolved (cwd (Demo.boot ∅)) "/srv/www/server.py"
                 (Demo.request "GET" "/secret.txt"))
    = RegularFile false "s3cret" 1000
  ∧ map statuses (heads (reply_to server_py Demo.host Demo.tree "/srv/www/server.py"
                           (Demo.boot ∅) (Demo.GET "/secret.txt")))
    = [[404%N]]
  ∧ replies (run server_py Demo.host Demo.tree "/srv/www/server.py"
               (Demo.session [Demo.GET "/secret.txt"; Demo.GET "/index.html"])
               (Demo.boot ∅))
    = map (reply_to server_py Demo.host Demo.tree "/srv/www/server.py" (Demo.boot ∅))
          (traffic (Demo.session [Demo.GET "/secret.txt"; Demo.GET "/index.html"])).
Proof.
  assert (H1 : bind_error
    (Demo.session [Demo.GET "/secret.txt"; Demo.GET "/index.html"]) = None)
    by reflexivity.
  assert (H2 : request.command (Demo.request "GET" "/secret.txt") = "GET")
    by reflexivity.
  assert (H3 : request.request_version (Demo.request "GET" "/secret.txt")
               ≠ "HTTP/0.9") by (vm_compute; discriminate).
  assert (H4 : Demo.tree (resolved (cwd (Demo.boot ∅)) "/srv/www/server.py"
                            (Demo.request "GET" "/secret.txt"))
               = RegularFile false "s3cret" 1000) by (vm_compute; reflexivity).
  repeat (split; [assumption|]).
  exact (unreadable_file_is_not_found server_py Demo.host Demo.tree
           "/srv/www/server.py" _ (Demo.boot ∅) _ _ _ H1 H2 H3 H4).
Defined.

(** ** Paths stay under the directory served *)

Lemma translate_path_under d path :
  under d (SimpleHTTPRequestHandler.translate_path d path).
Proof.
  unfold SimpleHTTPRequestHandler.translate_path.
  match goal with |- context [foldl ?f d (filter ?P (Str.split "/" ?s))] =>
    assert (under d (foldl f d (filter P (Str.split "/" s)))) as Hf;
    [ pose proof (split_no_sep "/" s) as Hws;
      revert Hws; generalize (Str.split "/" s) | ]
  end.
  { intros ws Hws.
    assert (Hbase : under d d) by constructor. revert Hbase.
    generalize d at 2 4 as acc.
    induction ws as [|w ws IH]; intros acc Hacc; [done|].
    rewrite filter_cons. case_decide as Hne.
    - cbn [foldl]. apply IH; [intros w' Hw'; apply Hws; by right|].
      destruct (negb _ || _ || _) eqn:E; [done|].
      apply orb_false_elim in E as [[_ E1]%orb_false_elim E2].
      constructor; [done|]. repeat split.
      + done.
      + intros ->. discriminate.
      + intros ->. discriminate.
      + apply Hws. by left.
    - apply IH; [intros w' Hw'; apply Hws; by right|done]. }
  destruct (Str.endswith _ "/"); [by constructor|done].
Qed.

Lemma startswith_refl s : Str.startswith s s = true.
Proof. induction s as [|a s IH]; cbn; [done|]. by rewrite Ascii.eqb_refl. Qed.

(** A path under [d] begins with [d]. *)
Lemma under_prefix d q : under d q → Str.startswith q d = true.
Proof.
  induction 1 as [|q w _ IH (_ & _ & _ & Hw)|q _ IH].
  - apply startswith_refl.
  - unfold posixpath.join. rewrite (no_sep_relative w Hw).
    destruct (_ || _); by apply startswith_append.
  - by apply startswith_append.
Qed.

Section frame.
Context (L : string → string) (guess : string → string) (sys : platform)
        (fs fs' : filesystem) (d : string).
Hypothesis Hsame : ∀ q, under d q → fs q = fs' q.

Lemma index_name_simple index :
  index ∈ ["index.html"; "index.htm"] → simple_name index.
Proof.
  intros [->|[->|[]%elem_of_nil]%elem_of_cons]%elem_of_cons;
    repeat split; done.
Qed.

Lemma file_answer_frame r q :
  under d q →
  file_answer L guess sys fs r q = file_answer L guess sys fs' r q.
Proof. intros Hq. unfold file_answer, open. by rewrite (Hsame q Hq). Qed.

Lemma head_answer_frame r :
  head_answer L guess sys fs r d = head_answer L guess sys fs' r d.
Proof.
  unfold head_answer.
  pose proof (translate_path_under d (request.path r)) as Hp.
  set (path := SimpleHTTPRequestHandler.translate_path d (request.path r)) in *.
  assert (H1 : under d (posixpath.join path "index.html"))
    by (constructor; [done|apply index_name_simple; rewrite !elem_of_cons; tauto]).
  assert (H2 : under d (posixpath.join path "index.htm"))
    by (constructor; [done|apply index_name_simple; rewrite !elem_of_cons; tauto]).
  unfold isdir, listing_answer, listdir. cbn [List.find]. unfold isfile.
  rewrite <- !(Hsame _ Hp), <- !(Hsame _ H1), <- !(Hsame _ H2).
  destruct (fs path); try apply file_answer_frame; try done.
  destruct (negb _); [done|].
  destruct (fs (posixpath.join path "index.html"));
    try (by apply file_answer_frame).
  all: destruct (fs (posixpath.join path "index.htm"));
    try (by apply file_answer_frame); done.
Qed.

Lemma answer_of_frame a :
  answer_of L guess sys fs a d = answer_of L guess sys fs' a d.
Proof. destruct a; cbn; by rewrite ?head_answer_frame. Qed.

End frame.

Lemma handle_frame cls L sys fs fs' getcwd a :
  regular cls L →
  (∀ q, under (default getcwd (virtual.init_directory cls)) q → fs q = fs' q) →
  handle cls sys fs getcwd a = handle cls sys fs' getcwd a.
Proof.
  intros Hreg Hsame. rewrite !(handle_answer cls L Hreg). cbn zeta.
  by rewrite (answer_of_frame L _ sys fs fs' _ Hsame).
Qed.



Lemma demo_trees_agree q : under "/srv/www" q → Demo.tree q = Demo.tree' q.
Proof.
  intros H%under_prefix. unfold Demo.tree'.
  destruct (String.eqb q "/etc/passwd") eqn:E; [|done].
  apply String.eqb_eq in E. subst q. discriminate.
Qed.


(** What a request for [/../../etc/passwd] gets. *)
Example etc_passwd_not_served :
  resolved "/home/dev" "/srv/www/server.py"
    (Demo.request "GET" "/../../etc/passwd") = "/srv/www/etc/passwd"
  ∧ map (λ w, map statuses (heads w))
        (replies (run server_py Demo.host Demo.tree "/srv/www/server.py"
                    (Demo.session [Demo.GET "/../../etc/passwd"]) (Demo.boot ∅)))
    = [[[404%N]]].
Proof. split; vm_compute; reflexivity. Qed.

(** ** What is logged *)

Section log_facts.
Context (L : string → string) (guess : string → string)
        (sys : platform) (fs : filesystem).

Lemma file_answer_logs r path :
  logs_like L r (file_answer L guess sys fs r path).1.
Proof.
  unfold file_answer.
  destruct (Str.endswith path "/"); [by right|].
  destruct (open fs path) as [[content st_mtime]|]; [|by right].
  destruct (not_modified r st_mtime); by left.
Qed.

Lemma head_answer_logs r d : logs_like L r (head_answer L guess sys fs r d).1.
Proof.
  unfold head_answer.
  destruct (isdir fs _); [|apply file_answer_logs].
  destruct (negb _); [by left|].
  destruct (List.find _ _); [apply file_answer_logs|].
  unfold listing_answer. destruct (listdir fs _); [by left|by right].
Qed.

Lemma answer_of_logs r d ans :
  answer_of L guess sys fs (parsed r) d = Some ans → logs_like L r ans.
Proof.
  cbn. intros H.
  destruct (String.eqb (request.command r) "GET").
  { simplify_eq. pose proof (head_answer_logs r d) as Hl. unfold logs_like in *.
    destruct (with_file_head (head_answer L guess sys fs r d))
      as (-> & -> & _ & ->). done. }
  destruct (String.eqb (request.command r) "HEAD"); simplify_eq.
  - apply head_answer_logs.
  - by right.
Qed.

End log_facts.

Lemma stderr_handle cls L sys fs getcwd a :
  regular cls L →
  stderr (handle cls sys fs getcwd a)
  = match answer_of L (virtual.guess_type cls) sys fs a
            (default getcwd (virtual.init_directory cls)) with
    | Some ans => ans_log ans
    | None => []
    end.
Proof.
  intros Hreg. rewrite (handle_answer cls L Hreg). cbn zeta.
  by destruct (answer_of _ _ _ _ _ _).
Qed.



(** What a run of [simple-server.py] leaves on standard error: the lines
    of its connections, in order. *)
Lemma simple_server_stderr sys fs __file__ ev p :
  sys_stderr (final (run simple_server_py sys fs __file__ ev p))
  = sys_stderr p
    ++ match bind_error ev with
       | None =>
           concat (map (log_of simple_server_py sys fs __file__ p) (traffic ev))
       | Some _ => []
       end.
Proof.
  cbn. unfold simple_server.main, log_of.
  destruct (bind_error ev) as [[|c m]|]; cbn; rewrite ?app_nil_r; [done..|].
  match goal with |- context [serve_forever ?c ?y ?f ?t ?q] =>
    pose proof (serve_forever_spec c y f t q) as (_ & _ & _ & _ & H);
    destruct (serve_forever c y f t q) as [p' rs] end.
  cbn in H. by destruct (stop ev).
Qed.

(** ** HEAD *)

Ltac member :=
  cbn;
  repeat match goal with H : _ ∈ _ :: _ |- _ => rewrite !elem_of_cons in H end;
  rewrite !elem_of_cons; tauto.

Section head_facts.
Context (L : string → string) (guess : string → string)
        (sys : platform) (fs : filesystem).

Lemma file_answer_command c c' r path :
  same_head (file_answer L guess sys fs (with_command c r) path).1
            (file_answer L guess sys fs (with_command c' r) path).1.
Proof.
  unfold file_answer.
  destruct (Str.endswith path "/"); [done|].
  destruct (open fs path) as [[content st_mtime]|]; [|done].
  change (not_modified (with_command c r) st_mtime)
    with (not_modified (with_command c' r) st_mtime).
  by destruct (not_modified _ _).
Qed.

Lemma head_answer_command c c' r d :
  same_head (head_answer L guess sys fs (with_command c r) d).1
            (head_answer L guess sys fs (with_command c' r) d).1.
Proof.
  unfold head_answer. cbn [with_command request.path].
  destruct (isdir fs _); [|apply file_answer_command].
  destruct (negb _); [done|].
  destruct (List.find _ _); [apply file_answer_command|].
  unfold listing_answer. by destruct (listdir fs _).
Qed.

Lemma file_answer_head r path :
  request.command r = "HEAD" →
  let ans := (file_answer L guess sys fs r path).1 in
  ans_payload ans = [] ∧ ans_code ans ∈ [OK; NOT_MODIFIED; NOT_FOUND].
Proof.
  intros Hcmd. unfold file_answer.
  assert (He : ∀ m e, ans_payload (error_answer L r NOT_FOUND m e) = []).
  { intros. unfold error_answer. cbn. rewrite Hcmd.
    by destruct (error_page _ _ _). }
  destruct (Str.endswith path "/"); [split; [apply He|member]|].
  destruct (open fs path) as [[content st_mtime]|];
    [|split; [apply He|member]].
  destruct (not_modified r st_mtime); split; first [done | member].
Qed.

Lemma head_answer_head r d :
  request.command r = "HEAD" →
  let ans := (head_answer L guess sys fs r d).1 in
  ans_payload ans = []
  ∧ ans_code ans ∈ [OK; MOVED_PERMANENTLY; NOT_MODIFIED; NOT_FOUND].
Proof.
  intros Hcmd. unfold head_answer.
  assert (Hf : ∀ path,
    ans_payload (file_answer L guess sys fs r path).1 = []
    ∧ ans_code (file_answer L guess sys fs r path).1
      ∈ [OK; MOVED_PERMANENTLY; NOT_MODIFIED; NOT_FOUND]).
  { intros path. destruct (file_answer_head r path Hcmd) as [? ?].
    split; [done|member]. }
  destruct (isdir fs _); [|apply Hf].
  destruct (negb _); [split; [done|member]|].
  destruct (List.find _ _); [apply Hf|].
  unfold listing_answer. destruct (listdir fs _); [split; [done|member]|].
  split; [|member].
  unfold error_answer. cbn. rewrite Hcmd. by destruct (error_page _ _ _).
Qed.

End head_facts.

Lemma bodies_handle cls L sys fs getcwd a :
  regular cls L →
  bodies (wfile (handle cls sys fs getcwd a))
  = match answer_of L (virtual.guess_type cls) sys fs a
            (default getcwd (virtual.init_directory cls)) with
    | Some ans => bodies (ans_payload ans)
    | None => []
    end.
Proof.
  intros Hreg. rewrite (handle_answer cls L Hreg). cbn zeta.
  destruct (answer_of _ _ _ _ _ _) as [ans|]; [|done].
  cbn [render wfile mk]. unfold bodies. rewrite !omap_app.
  by destruct (ver _).
Qed.

Lemma header_block_same sys a b :
  same_head a b → header_block sys a = header_block sys b.
Proof. intros (H1 & H2 & H3). unfold header_block. by rewrite H1, H2, H3. Qed.


(** A request that is not HTTP/0.9 gets exactly one header block. *)
Lemma one_header_block s sys fs __file__ p r :
  request.request_version r ≠ "HTTP/0.9" →
  length (heads (reply_to s sys fs __file__ p (parsed r))) = 1%nat.
Proof.
  intros Hver. unfold reply_to.
  rewrite (heads_handle _ _ _ _ _ _ (regular_serving s sys __file__ p)).
  destruct (answer_of _ _ _ _ _ _) as [ans|] eqn:E.
  2: { cbn in E. repeat case_match; simplify_eq. }
  cbn [request_of]. unfold ver. by rewrite bool_decide_eq_true_2.
Qed.

(** * Further properties

    Properties of the two scripts beyond the ones above: what a run
    prints, how it ends, and what single requests are answered with. *)

(** ** The process *)

Lemma port_string : Str.of_N 8080 = "8080".
Proof. reflexivity. Qed.

Lemma serve_forever_fst cls sys fs conns p :
  cwd (serve_forever cls sys fs conns p).1 = cwd p
  ∧ types_map (serve_forever cls sys fs conns p).1 = types_map p
  ∧ sys_stdout (serve_forever cls sys fs conns p).1 = sys_stdout p
  ∧ sys_stderr (serve_forever cls sys fs conns p).1
    = sys_stderr p
      ++ concat (map (λ a, stderr (handle cls sys fs (cwd p) a)) conns).
Proof. by destruct (serve_forever_spec cls sys fs conns p) as (_ & ? & ? & ? & ?). Qed.

(** X1.  Standard output of simple-server.py, in every run: the four
    start-up lines (with port 8080 and the directory of the script), printed
    before the port is bound and so also when binding fails; then, only if
    the port was bound, the line saying the server started; then one last
    line, the stop message after an interrupt or [Error starting server:
    <message>] after any other exception, whether it came from binding or
    from serving.  Handling requests prints nothing. *)
Theorem simple_server_stdout sys fs __file__ ev p :
  sys_stdout (final (run simple_server_py sys fs __file__ ev p))
  = sys_stdout p
    ++ ["Starting server on port 8080" +:+ LF;
        "Serving files from: " +:+ base_directory (cwd p) __file__ +:+ LF;
        "Open your browser and navigate to: http://localhost:8080/simple-start.html"
        +:+ LF;
        "Press Ctrl+C to stop the server" +:+ LF]
    ++ match bind_error ev with
       | None => ["Server started successfully. Press Ctrl+C to stop." +:+ LF]
       | Some _ => []
       end
    ++ match default (stop ev) (bind_error ev) with
       | KeyboardInterrupt => [LF +:+ "Server stopped by user." +:+ LF]
       | Error _ message => ["Error starting server: " +:+ message +:+ LF]
       end.
Proof.
  cbn [run]. unfold simple_server.main, simple_server.DIRECTORY, base_directory.
  unfold simple_server.PORT. rewrite port_string.
  destruct (bind_error ev) as [e|] eqn:Hb.
  - cbn [default]. destruct e; cbn; rewrite <- !app_assoc; cbn;
      by rewrite ?append_assoc.
  - cbn [default].
    match goal with |- context [serve_forever ?c ?y ?f ?t ?q] =>
      pose proof (serve_forever_fst c y f t q) as (_ & _ & H & _);
      destruct (serve_forever c y f t q) as [p' rs] end.
    cbn in H. destruct (stop ev); cbn; rewrite H, <- !app_assoc; cbn;
      by rewrite ?append_assoc.
Qed.

(** X2.  Standard output of scripts/server.py, in every run: its three
    start-up lines, and after them the line [Server stopped.] exactly when
    the port was bound and serving was ended by an interrupt.  There is no
    line saying that the server started, nothing is printed for an error,
    and nothing for an interrupt that arrives while the port is bound. *)
Theorem server_py_stdout sys fs __file__ ev p :
  sys_stdout (final (run server_py sys fs __file__ ev p))
  = sys_stdout p
    ++ ["Starting server at http://localhost:8080" +:+ LF;
        "Serving files from: " +:+ base_directory (cwd p) __file__ +:+ LF;
        "Press Ctrl+C to stop the server" +:+ LF]
    ++ match bind_error ev, stop ev with
       | None, KeyboardInterrupt => [LF +:+ "Server stopped." +:+ LF]
       | _, _ => []
       end.
Proof.
  cbn [run]. unfold server.main, server.DIRECTORY, base_directory.
  unfold server.PORT. rewrite port_string.
  destruct (bind_error ev) as [e|] eqn:Hb.
  - destruct e; cbn; rewrite <- !app_assoc; cbn; by rewrite ?append_assoc.
  - match goal with |- context [serve_forever ?c ?y ?f ?t ?q] =>
      pose proof (serve_forever_fst c y f t q) as (_ & _ & H & _);
      destruct (serve_forever c y f t q) as [p' rs] end.
    cbn in H. destruct (stop ev); cbn; rewrite H, <- !app_assoc; cbn;
      by rewrite ?append_assoc.
Qed.


(** X4.  scripts/server.py ends with status 0 only when an interrupt
    ends serving.  It constructs the server outside its [try], so an
    interrupt that arrives while the port is bound is not caught: the
    process ends by the interrupt, with the interpreter's traceback.  Any
    other exception, from binding or from serving, is not caught either:
    exit status 1, and the traceback, ending in [<class>: <message>], is
    written to standard error after the log lines of the connections
    answered. *)
Theorem server_py_exit_status sys fs __file__ ev p :
  ending (run server_py sys fs __file__ ev p)
  = match bind_error ev, stop ev with
    | None, KeyboardInterrupt => exited 0
    | Some KeyboardInterrupt, _ => interrupted
    | Some (Error _ _), _ | None, Error _ _ => exited 1
    end
  ∧ sys_stderr (final (run server_py sys fs __file__ ev p))
    = sys_stderr p
      ++ match bind_error ev with
         | None => concat (map (log_of server_py sys fs __file__ p) (traffic ev))
         | Some _ => []
         end
      ++ match bind_error ev, stop ev with
         | None, KeyboardInterrupt => []
         | Some KeyboardInterrupt, _ =>
             ["Traceback (most recent call last):" +:+ LF;
              "KeyboardInterrupt" +:+ LF]
         | Some (Error class_name message), _
         | None, Error class_name message =>
             ["Traceback (most recent call last):" +:+ LF;
              class_name +:+ ": " +:+ message +:+ LF]
         end.
Proof.
  cbn [run]. unfold server.main, log_of.
  destruct (bind_error ev) as [[|c m]|]; [done..|].
  cbn zeta.
  match goal with |- context [serve_forever ?c ?y ?f ?t ?q] =>
    pose proof (serve_forever_fst c y f t q) as (_ & _ & _ & H);
    destruct (serve_forever c y f t q) as [p' rs] end.
  cbn in H.
  destruct (stop ev); cbn; rewrite H, <- ?app_assoc, ?app_nil_r; by split.
Qed.


(** ** The directory served *)

Lemma rev_onto_acc s acc : Str.rev_onto s acc = Str.rev_onto s "" +:+ acc.
Proof.
  revert acc. induction s as [|a s IH]; intros acc; cbn [Str.rev_onto].
  - by rewrite append_nil.
  - rewrite (IH (String a acc)), (IH (String a "")).
    by rewrite append_assoc, append_cons, append_nil.
Qed.

Lemma rev_onto_involutive s : Str.rev_onto (Str.rev_onto s "") "" = s.
Proof. rewrite rev_onto_rev_onto. cbn. apply append_empty. Qed.

Lemma all_sep_append a b :
  posixpath.all_sep (a +:+ b) = posixpath.all_sep a && posixpath.all_sep b.
Proof.
  induction a as [|c a IH]; [by rewrite append_nil|].
  rewrite append_cons. cbn [posixpath.all_sep]. rewrite IH. by rewrite andb_assoc.
Qed.

Lemma all_sep_rev t :
  posixpath.all_sep (Str.rev_onto t "") = posixpath.all_sep t.
Proof.
  induction t as [|c t IH]; [done|].
  cbn [Str.rev_onto]. rewrite rev_onto_acc, all_sep_append, IH.
  cbn [posixpath.all_sep].
  by destruct (Str.chr_eqb c posixpath.sep), (posixpath.all_sep t).
Qed.

Lemma lstrip_sep_suffix u :
  ∃ t, u = t +:+ posixpath.lstrip_sep u ∧ posixpath.all_sep t = true.
Proof.
  induction u as [|c u (t & Hu & Ht)]; [by exists ""|].
  cbn [posixpath.lstrip_sep]. destruct (Str.chr_eqb c posixpath.sep) eqn:Hc.
  - exists (String c t). rewrite append_cons, <- Hu. split; [done|].
    cbn [posixpath.all_sep]. by rewrite Hc, Ht.
  - by exists "".
Qed.

(** [rstrip_sep] removes separators from the end, and nothing else. *)
Lemma rstrip_sep_prefix s :
  ∃ t, s = posixpath.rstrip_sep s +:+ t ∧ posixpath.all_sep t = true.
Proof.
  destruct (lstrip_sep_suffix (Str.rev_onto s "")) as (t & Hs & Ht).
  exists (Str.rev_onto t ""). split; [|by rewrite all_sep_rev].
  unfold posixpath.rstrip_sep. rewrite <- rev_onto_acc, <- rev_onto_append, <- Hs.
  by rewrite rev_onto_involutive.
Qed.

Lemma startswith_slash s :
  Str.startswith s "/" = true → ∃ s', s = String "/" s'.
Proof.
  destruct s as [|a s]; [done|]. cbn [Str.startswith]. unfold Str.chr_eqb.
  destruct (Ascii.eqb_spec a "/") as [->|]; [by exists s|done].
Qed.

Lemma startswith_cons_slash s : Str.startswith (String "/" s) "/" = true.
Proof. by destruct s. Qed.

Lemma dirname_absolute p :
  Str.startswith p "/" = true → Str.startswith (posixpath.dirname p) "/" = true.
Proof.
  intros (p' & ->)%startswith_slash. unfold posixpath.dirname.
  assert (∃ k, Str.rfind posixpath.sep (String "/" p') = Some k) as [k ->].
  { cbn [Str.rfind]. destruct (Str.rfind posixpath.sep p'); eauto. }
  cbn [Str.take]. set (head := String "/" (Str.take k p')).
  destruct (negb (String.eqb head "") && negb (posixpath.all_sep head)) eqn:E;
    [|apply startswith_cons_slash].
  apply andb_true_iff in E as [_ E]. apply negb_true_iff in E.
  destruct (rstrip_sep_prefix head) as (t & Hh & Ht).
  destruct (posixpath.rstrip_sep head) as [|b r].
  - rewrite append_nil in Hh. congruence.
  - rewrite append_cons in Hh. unfold head in Hh. injection Hh as <- _.
    apply startswith_cons_slash.
Qed.

Lemma normpath_absolute p :
  Str.startswith p "/" = true → Str.startswith (posixpath.normpath p) "/" = true.
Proof.
  intros H. unfold posixpath.normpath. rewrite H.
  destruct (startswith_slash _ H) as (p' & ->).
  change (String.eqb (String "/" p') "") with false. cbv beta iota.
  destruct (_ && _); cbv beta iota zeta; rewrite append_cons;
    apply startswith_cons_slash.
Qed.

Lemma abspath_absolute getcwd path :
  Str.startswith getcwd "/" = true → Str.startswith (abspath getcwd path) "/" = true.
Proof.
  intros H. unfold abspath. apply normpath_absolute.
  destruct (Str.startswith path "/") eqn:E; [done|]. by apply join_absolute.
Qed.

(** X6.  When the working directory at start-up is an absolute path (as
    [os.getcwd()] is), the module constant [DIRECTORY] of each script is an
    absolute path, whatever [__file__] is, and so is the file path every
    request resolves to. *)
Theorem directory_is_absolute getcwd __file__ :
  Str.startswith getcwd "/" = true →
  Str.startswith (simple_server.DIRECTORY getcwd __file__) "/" = true
  ∧ Str.startswith (server.DIRECTORY getcwd __file__) "/" = true
  ∧ ∀ r, Str.startswith (resolved getcwd __file__ r) "/" = true.
Proof.
  intros H.
  assert (Str.startswith (posixpath.dirname (abspath getcwd __file__)) "/" = true)
    by by apply dirname_absolute, abspath_absolute.
  repeat split; [done..|]. intros r. by apply translate_path_absolute.
Qed.

Lemma directory_is_absolute_witness :
  Str.startswith "/home/dev" "/" = true
  ∧ simple_server.DIRECTORY "/home/dev" "../../srv/www/./simple-server.py"
    = "/srv/www"
  ∧ Str.startswith (simple_server.DIRECTORY "/home/dev" "tools/simple-server.py") "/"
    = true.
Proof.
  split; [reflexivity|]. split; [reflexivity|].
  apply (directory_is_absolute "/home/dev" "tools/simple-server.py"). reflexivity.
Defined.

(** ** MIME types *)

Lemma extensions_map_keys ext type :
  SimpleHTTPRequestHandler.extensions_map !! ext = Some type →
  ext ∈ [".gz"; ".Z"; ".bz2"; ".xz"].
Proof.
  unfold SimpleHTTPRequestHandler.extensions_map.
  rewrite !lookup_insert_Some, lookup_empty, !elem_of_cons.
  intuition (subst; auto; discriminate).
Qed.

Lemma encodings_map_keys ext encoding :
  mimetypes.encodings_map !! ext = Some encoding →
  ext ∈ [".gz"; ".Z"; ".bz2"; ".xz"; ".br"].
Proof.
  unfold mimetypes.encodings_map.
  rewrite !lookup_insert_Some, lookup_empty, !elem_of_cons.
  intuition (subst; auto; discriminate).
Qed.

(** An extension that is [.js] or [.css] up to letter case is no key of
    the tables of encodings. *)
Lemma script_or_style_ext ext :
  Str.lower ext = ".js" ∨ Str.lower ext = ".css" →
  SimpleHTTPRequestHandler.extensions_map !! ext = None
  ∧ mimetypes.encodings_map !! ext = None.
Proof.
  intros He. split.
  - destruct (_ !! ext) as [type|] eqn:E; [|done].
    apply extensions_map_keys in E. rewrite !elem_of_cons, elem_of_nil in E.
    destruct E as [->|[->|[->|[->|[]]]]]; by destruct He.
  - destruct (_ !! ext) as [type|] eqn:E; [|done].
    apply encodings_map_keys in E. rewrite !elem_of_cons, elem_of_nil in E.
    destruct E as [->|[->|[->|[->|[->|[]]]]]]; by destruct He.
Qed.

(** The inherited [guess_type] looks the extension up in lower case. *)
Lemma inherited_guess_lower tm path e type :
  Str.startswith path "/" = true →
  Str.lower (snd (posixpath.splitext path)) = e →
  e = ".js" ∨ e = ".css" →
  tm !! e = Some type → type ≠ "" →
  SimpleHTTPRequestHandler.guess_type tm path = type.
Proof.
  intros Habs Hext He Htm Hty.
  assert (Hl : Str.lower (snd (posixpath.splitext path)) = ".js"
               ∨ Str.lower (snd (posixpath.splitext path)) = ".css")
    by (rewrite Hext; exact He).
  destruct (script_or_style_ext _ Hl) as [Hx Hn].
  unfold SimpleHTTPRequestHandler.guess_type, mimetypes.guess_type.
  rewrite splittype_absolute by done.
  destruct (posixpath.splitext path) as [base ext]. cbn [snd] in *.
  rewrite Hx, Hext.
  assert (SimpleHTTPRequestHandler.extensions_map !! e = None) as ->
    by by destruct He as [->| ->].
  rewrite bool_decide_eq_false_2 by done.
  unfold mimetypes.suffix_loop. rewrite Hext.
  assert (mimetypes.suffix_map !! e = None) as -> by by destruct He as [->| ->].
  cbv beta iota. rewrite Hn, Hext, Htm.
  destruct type; [done|reflexivity].
Qed.

Lemma lower_length s : String.length (Str.lower s) = String.length s.
Proof. induction s; cbn; congruence. Qed.

(** X7.  In scripts/server.py the extension of a file counts whatever its
    letter case.  The override of [guess_type] compares the end of the path
    with [.js] exactly, but the two [add_type] calls register [.js] and
    [.css] in the table the inherited [guess_type] reads with the
    extension in lower case: a file whose extension is [.js] up to case
    (such as [APP.JS]) is typed [application/javascript], and one whose
    extension is [.css] up to case is typed [text/css], whatever the tables
    of the host say. *)
Theorem registered_types_any_case p path :
  Str.startswith path "/" = true →
  (Str.lower (snd (posixpath.splitext path)) = ".js" →
   CustomHTTPRequestHandler.guess_type (serving_types server_py p) path
   = "application/javascript")
  ∧ (Str.lower (snd (posixpath.splitext path)) = ".css" →
     CustomHTTPRequestHandler.guess_type (serving_types server_py p) path
     = "text/css").
Proof.
  intros Habs. unfold CustomHTTPRequestHandler.guess_type. split; intros Hext.
  - destruct (Str.endswith path ".js"); [done|].
    eapply inherited_guess_lower; [done|exact Hext|by left| |done].
    cbn. unfold mimetypes.add_type.
    rewrite lookup_insert_ne by done. apply lookup_insert_eq.
  - assert (Str.endswith path ".js" = false) as ->.
    { rewrite <- (splitext_append path).
      pose proof (lower_length (snd (posixpath.splitext path))) as Hlen.
      rewrite Hext in Hlen. cbn in Hlen.
      rewrite endswith_longer by (cbn; lia).
      destruct (snd (posixpath.splitext path)) as [|a [|b [|c [|d [|]]]]];
        try discriminate.
      cbn in Hext. injection Hext as _ Hb _ _.
      cbn. destruct (Ascii.eqb_spec b "."); [by subst b|].
      repeat match goal with
             | |- context [Ascii.eqb ?x ?y] => destruct (Ascii.eqb x y)
             end; reflexivity. }
    eapply inherited_guess_lower; [done|exact Hext|by right| |done].
    apply lookup_insert_eq.
Qed.

Lemma registered_types_any_case_witness :
  Str.startswith "/srv/www/APP.JS" "/" = true
  ∧ Str.endswith "/srv/www/APP.JS" ".js" = false
  ∧ CustomHTTPRequestHandler.guess_type
      (serving_types server_py Demo.plain_text_host) "/srv/www/APP.JS"
    = "application/javascript"
  ∧ CustomHTTPRequestHandler.guess_type
      (serving_types server_py Demo.plain_text_host) "/srv/www/Print.CSS"
    = "text/css".
Proof.
  split; [reflexivity|]. split; [reflexivity|]. split.
  - apply (registered_types_any_case Demo.plain_text_host "/srv/www/APP.JS");
      reflexivity.
  - apply (registered_types_any_case Demo.plain_text_host "/srv/www/Print.CSS");
      reflexivity.
Defined.

(** ** Single requests *)

(** Everything a connection receives: the header block of the answer,
    unless the request is HTTP/0.9, then its data. *)
Lemma wfile_handle cls L sys fs getcwd a :
  regular cls L →
  wfile (handle cls sys fs getcwd a)
  = match answer_of L (virtual.guess_type cls) sys fs a
            (default getcwd (virtual.init_directory cls)) with
    | Some ans =>
        (if ver (request_of a) then [head (header_block sys ans)] else [])
        ++ ans_payload ans
    | None => []
    end.
Proof.
  intros Hreg. rewrite (handle_answer cls L Hreg). cbn zeta.
  destruct (answer_of _ _ _ _ _ _) as [ans|]; [|done].
  cbn [render wfile mk req _headers_buffer]. by destruct (ver _).
Qed.

Lemma reply_to_answer s sys fs __file__ p a :
  reply_to s sys fs __file__ p a
  = match answer_of (log_line s sys) (content_type s p) sys fs a
            (base_directory (cwd p) __file__) with
    | Some ans =>
        (if ver (request_of a) then [head (header_block sys ans)] else [])
        ++ ans_payload ans
    | None => []
    end.
Proof.
  unfold reply_to.
  rewrite (wfile_handle _ _ sys fs _ a (regular_serving s sys __file__ p)).
  rewrite serving_directory. by destruct s.
Qed.

Lemma heads_reply_to s sys fs __file__ p a :
  heads (reply_to s sys fs __file__ p a)
  = match answer_of (log_line s sys) (content_type s p) sys fs a
            (base_directory (cwd p) __file__) with
    | Some ans => if ver (request_of a) then [header_block sys ans] else []
    | None => []
    end.
Proof.
  unfold reply_to.
  rewrite (heads_handle _ _ sys fs _ a (regular_serving s sys __file__ p)).
  rewrite serving_directory. by destruct s.
Qed.

Lemma ver_true r : request.request_version r ≠ "HTTP/0.9" → ver r = true.
Proof. intros H. unfold ver. by rewrite bool_decide_eq_true_2. Qed.

Lemma ver_false r : request.request_version r = "HTTP/0.9" → ver r = false.
Proof. intros H. unfold ver. rewrite bool_decide_eq_false_2; [done|]. by intros []. Qed.

Section file_facts.
Context (L : string → string) (guess : string → string)
        (sys : platform) (fs : filesystem).

Lemma file_answer_readable r path content st_mtime :
  fs path = RegularFile true content st_mtime →
  Str.endswith path "/" = false →
  file_answer L guess sys fs r path
  = if not_modified r st_mtime then (plain_answer L r NOT_MODIFIED [], None)
    else
      (plain_answer L r OK
         [header_line "Content-type" (guess path);
          header_line "Content-Length" (Str.of_nat (String.length content));
          header_line "Last-Modified" (date_time_string sys (Some st_mtime))],
       Some content).
Proof. intros Hfs Hsl. unfold file_answer, open. by rewrite Hsl, Hfs. Qed.

Lemma file_answer_missing r path :
  open fs path = None ∨ Str.endswith path "/" = true →
  file_answer L guess sys fs r path
  = (error_answer L r NOT_FOUND (Some "File not found") None, None).
Proof.
  intros H. unfold file_answer.
  destruct (Str.endswith path "/"); [done|]. by destruct H as [->|].
Qed.

Lemma head_answer_no_directory r d :
  isdir fs (SimpleHTTPRequestHandler.translate_path d (request.path r)) = false →
  head_answer L guess sys fs r d
  = file_answer L guess sys fs r
      (SimpleHTTPRequestHandler.translate_path d (request.path r)).
Proof. intros H. unfold head_answer. by rewrite H. Qed.

End file_facts.

Lemma isdir_regular fs path readable content st_mtime :
  fs path = RegularFile readable content st_mtime → isdir fs path = false.
Proof. intros H. unfold isdir. by rewrite H. Qed.

Lemma error_page_404 :
  error_page NOT_FOUND (Some "File not found") None = Some not_found_page.
Proof. reflexivity. Qed.

(** X8.  Every header block either script sends has the same frame: the
    status line, which always says [HTTP/1.0] (neither class sets
    [protocol_version]), then [Server] and [Date], then the fields of the
    answer, then the three fields of [end_headers] in the order the
    override sends them, which are therefore the last fields of the block,
    then the blank line. *)
Theorem header_block_frame s sys fs __file__ ev p :
  Forall (λ w,
    Forall (λ ls, ∃ code reason fields,
              Forall ordinary fields
              ∧ ls = status_line "HTTP/1.0" code reason
                     :: header_line "Server" (version_string sys)
                     :: header_line "Date" (date_time_string sys None)
                     :: fields
                     ++ [header_line "Access-Control-Allow-Origin" "*";
                         header_line "Access-Control-Allow-Methods" "GET";
                         header_line "Cache-Control"
                           "no-store, no-cache, must-revalidate";
                         blank_line])
           (heads w))
    (replies (run s sys fs __file__ ev p)).
Proof.
  rewrite run_replies. destruct (bind_error ev); [done|].
  apply Forall_map, Forall_forall. intros a _. cbn beta. unfold reply_to.
  rewrite (heads_handle _ _ sys fs _ a (regular_serving s sys __file__ p)).
  destruct (answer_of _ _ _ _ _ _) as [ans|] eqn:E; [|done].
  destruct (ver _); [|done]. constructor; [|done].
  apply answer_of_ordinary in E as [Hord _].
  by exists (value (ans_code ans)), (ans_reason ans), (ans_fields ans).
Qed.

(** X9.  A request that is HTTP/0.9 (a request line without a version)
    gets no status line and no header field from either script, so none of
    the three fields of [end_headers] either: [send_header] and the
    inherited [end_headers] do nothing for it.  What it receives for a
    readable regular file is the content of the file alone. *)
Theorem http09_gets_no_headers s sys fs __file__ p r :
  request.request_version r = "HTTP/0.9" →
  heads (reply_to s sys fs __file__ p (parsed r)) = []
  ∧ ∀ content st_mtime,
      request.command r = "GET" →
      fs (resolved (cwd p) __file__ r) = RegularFile true content st_mtime →
      Str.endswith (resolved (cwd p) __file__ r) "/" = false →
      not_modified r st_mtime = false →
      reply_to s sys fs __file__ p (parsed r)
      = if String.eqb content "" then [] else [data content].
Proof.
  intros Hv. split.
  - unfold reply_to.
    rewrite (heads_handle _ _ sys fs _ _ (regular_serving s sys __file__ p)).
    cbn [request_of]. rewrite (ver_false r Hv). by destruct (answer_of _ _ _ _ _ _).
  - intros content st_mtime Hc Hfs Hsl Hnm. rewrite reply_to_answer.
    cbn [answer_of request_of]. rewrite Hc, (ver_false r Hv). cbn [String.eqb].
    change (String.eqb "GET" "GET") with true. cbv beta iota.
    rewrite head_answer_no_directory by (by eapply isdir_regular).
    erewrite file_answer_readable by done. rewrite Hnm. by cbn.
Qed.

Lemma http09_gets_no_headers_witness :
  request.request_version Examples.old_request = "HTTP/0.9"
  ∧ heads (reply_to simple_server_py Demo.host Demo.tree "/srv/www/simple-server.py"
             (Demo.boot ∅) (parsed Examples.old_request)) = []
  ∧ reply_to simple_server_py Demo.host Demo.tree "/srv/www/simple-server.py"
      (Demo.boot ∅) (parsed Examples.old_request) = [data "let x;"].
Proof.
  split; [reflexivity|].
  destruct (http09_gets_no_headers simple_server_py Demo.host Demo.tree
              "/srv/www/simple-server.py" (Demo.boot ∅) Examples.old_request)
    as [H1 H2]; [reflexivity|].
  split; [exact H1|].
  apply (H2 "let x;" 1000); reflexivity.
Defined.

(** X10.  A GET request (not HTTP/0.9) whose path resolves to a readable
    regular file, and that is not a conditional request the file satisfies,
    receives exactly: one header block with status 200, the Content-type the
    class guesses for the resolved path, the length of the file and its
    modification date, and the three fields of [end_headers]; then the
    content of the file, unchanged (nothing, when the file is empty). *)
Theorem file_is_served s sys fs __file__ p r content st_mtime :
  request.command r = "GET" →
  request.request_version r ≠ "HTTP/0.9" →
  fs (resolved (cwd p) __file__ r) = RegularFile true content st_mtime →
  Str.endswith (resolved (cwd p) __file__ r) "/" = false →
  not_modified r st_mtime = false →
  reply_to s sys fs __file__ p (parsed r)
  = head [status_line "HTTP/1.0" 200 "OK";
          header_line "Server" (version_string sys);
          header_line "Date" (date_time_string sys None);
          header_line "Content-type"
            (content_type s p (resolved (cwd p) __file__ r));
          header_line "Content-Length" (Str.of_nat (String.length content));
          header_line "Last-Modified" (date_time_string sys (Some st_mtime));
          header_line "Access-Control-Allow-Origin" "*";
          header_line "Access-Control-Allow-Methods" "GET";
          header_line "Cache-Control" "no-store, no-cache, must-revalidate";
          blank_line]
    :: (if String.eqb content "" then [] else [data content]).
Proof.
  intros Hc Hv Hfs Hsl Hnm. rewrite reply_to_answer.
  cbn [answer_of request_of]. rewrite Hc, (ver_true r Hv).
  change (String.eqb "GET" "GET") with true. cbv beta iota.
  rewrite head_answer_no_directory by (by eapply isdir_regular).
  erewrite file_answer_readable by done. rewrite Hnm. reflexivity.
Qed.

Lemma file_is_served_witness :
  reply_to server_py Demo.host Demo.tree "/srv/www/server.py" (Demo.boot ∅)
    (Demo.GET "/app.js")
  = [head [status_line "HTTP/1.0" 200 "OK";
           header_line "Server" "SimpleHTTP/0.6 Python/3.11.2";
           header_line "Date" "Wed, 04 Nov 2026 10:00:00 GMT";
           header_line "Content-type" "application/javascript";
           header_line "Content-Length" "6";
           header_line "Last-Modified" "Wed, 04 Nov 2026 10:00:00 GMT";
           header_line "Access-Control-Allow-Origin" "*";
           header_line "Access-Control-Allow-Methods" "GET";
           header_line "Cache-Control" "no-store, no-cache, must-revalidate";
           blank_line];
     data "let x;"].
Proof.
  apply (file_is_served server_py Demo.host Demo.tree "/srv/www/server.py"
           (Demo.boot ∅) (Demo.request "GET" "/app.js") "let x;" 1000);
    [reflexivity| discriminate | reflexivity..].
Defined.



(** X12.  Neither class defines a method for anything but GET and HEAD
    (the names are compared exactly, so [get] is another method): a request
    with any other method (not HTTP/0.9) is answered 501 with [Connection:
    close], whatever its path, and the file system is not consulted: the
    reply is the same on every file system. *)
Theorem other_methods_are_not_implemented s sys fs __file__ p r :
  request.command r ≠ "GET" →
  request.command r ≠ "HEAD" →
  request.request_version r ≠ "HTTP/0.9" →
  statuses_of (reply_to s sys fs __file__ p (parsed r)) = [[501%N]]
  ∧ map (header_values "Connection") (heads (reply_to s sys fs __file__ p (parsed r)))
    = [["close"]]
  ∧ ∀ fs', reply_to s sys fs' __file__ p (parsed r)
           = reply_to s sys fs __file__ p (parsed r).
Proof.
  intros Hg Hh Hv.
  assert (Ha : ∀ fs0,
    answer_of (log_line s sys) (content_type s p) sys fs0 (parsed r)
      (base_directory (cwd p) __file__)
    = Some (error_answer (log_line s sys) r NOT_IMPLEMENTED
              (Some (percent "Unsupported method (%r)"
                       [repr sys (request.command r)])) None)).
  { intros fs0. cbn [answer_of].
    apply String.eqb_neq in Hg as ->. by apply String.eqb_neq in Hh as ->. }
  assert (Ho : Forall ordinary
                 (ans_fields (error_answer (log_line s sys) r NOT_IMPLEMENTED
                    (Some (percent "Unsupported method (%r)"
                             [repr sys (request.command r)])) None)))
    by apply error_answer_ordinary.
  unfold statuses_of. rewrite heads_reply_to, Ha.
  cbn [request_of]. rewrite (ver_true r Hv).
  split; [|split].
  - cbn [map]. by rewrite statuses_block.
  - cbn [map]. by rewrite header_values_block.
  - intros fs'. by rewrite !reply_to_answer, !Ha.
Qed.

Lemma other_methods_are_not_implemented_witness :
  statuses_of (reply_to server_py Demo.host Demo.tree "/srv/www/server.py"
                 (Demo.boot ∅) (parsed (Demo.request "POST" "/index.html")))
  = [[501%N]].
Proof.
  apply (other_methods_are_not_implemented server_py Demo.host Demo.tree
           "/srv/www/server.py" (Demo.boot ∅)
           (Demo.request "POST" "/index.html")); discriminate.
Defined.

(** X13.  A GET request (not HTTP/0.9) for a readable regular file that
    carries [If-Modified-Since] with a date not before the modification
    time of the file, and no [If-None-Match], receives one header block and
    nothing else: status 304, no Content-type, no length, no body, and the
    three fields of [end_headers], [Cache-Control: no-store] among them. *)
Theorem unmodified_file_is_not_sent s sys fs __file__ p r content st_mtime ims :
  request.command r = "GET" →
  request.request_version r ≠ "HTTP/0.9" →
  fs (resolved (cwd p) __file__ r) = RegularFile true content st_mtime →
  Str.endswith (resolved (cwd p) __file__ r) "/" = false →
  request.if_modified_since r = Some ims →
  request.if_none_match r = false →
  st_mtime ≤ ims →
  reply_to s sys fs __file__ p (parsed r)
  = [head [status_line "HTTP/1.0" 304 "Not Modified";
           header_line "Server" (version_string sys);
           header_line "Date" (date_time_string sys None);
           header_line "Access-Control-Allow-Origin" "*";
           header_line "Access-Control-Allow-Methods" "GET";
           header_line "Cache-Control" "no-store, no-cache, must-revalidate";
           blank_line]].
Proof.
  intros Hc Hv Hfs Hsl Hims Hnone Hle. rewrite reply_to_answer.
  cbn [answer_of request_of]. rewrite Hc, (ver_true r Hv).
  change (String.eqb "GET" "GET") with true. cbv beta iota.
  rewrite head_answer_no_directory by (by eapply isdir_regular).
  erewrite file_answer_readable by done.
  unfold not_modified. rewrite Hims, Hnone.
  apply Z.leb_le in Hle. rewrite Hle. reflexivity.
Qed.

Lemma unmodified_file_is_not_sent_witness :
  bodies (reply_to simple_server_py Demo.host Demo.tree "/srv/www/simple-server.py"
            (Demo.boot ∅) (parsed (Examples.conditional "/style.css" 1000))) = []
  ∧ statuses_of
      (reply_to simple_server_py Demo.host Demo.tree "/srv/www/simple-server.py"
         (Demo.boot ∅) (parsed (Examples.conditional "/style.css" 1000)))
    = [[304%N]].
Proof.
  rewrite (unmodified_file_is_not_sent simple_server_py Demo.host Demo.tree
             "/srv/www/simple-server.py" (Demo.boot ∅)
             (Examples.conditional "/style.css" 1000) "a{}" 1000 1000);
    [split; reflexivity | reflexivity | discriminate | reflexivity..| lia].
Defined.

(** ** Directories *)

Lemma join_relative a w :
  Str.startswith w "/" = false →
  ∃ pre, posixpath.join a w = pre +:+ w.
Proof.
  intros H. unfold posixpath.join. rewrite H.
  destruct (_ || _); [by exists a|]. exists (a +:+ "/"). by rewrite append_assoc.
Qed.

(** X14.  A GET or HEAD request (not HTTP/0.9) whose path resolves to a
    directory, and whose URL path does not end in a slash, is not answered
    from the directory: it receives one header block with status 301, a
    [Location] that is the URL with a slash added to its path (query and
    fragment kept), [Content-Length: 0], the three fields of
    [end_headers], and no body. *)
Theorem directory_without_slash_is_redirected s sys fs __file__ p r :
  request.command r = "GET" ∨ request.command r = "HEAD" →
  request.request_version r ≠ "HTTP/0.9" →
  isdir fs (resolved (cwd p) __file__ r) = true →
  Str.endswith (urllib.path (urlsplit sys (request.path r))) "/" = false →
  reply_to s sys fs __file__ p (parsed r)
  = [head [status_line "HTTP/1.0" 301 "Moved Permanently";
           header_line "Server" (version_string sys);
           header_line "Date" (date_time_string sys None);
           header_line "Location"
             (urlunsplit sys
                {| urllib.scheme := urllib.scheme (urlsplit sys (request.path r));
                   urllib.netloc := urllib.netloc (urlsplit sys (request.path r));
                   urllib.path :=
                     urllib.path (urlsplit sys (request.path r)) +:+ "/";
                   urllib.query := urllib.query (urlsplit sys (request.path r));
                   urllib.fragment :=
                     urllib.fragment (urlsplit sys (request.path r)) |});
           header_line "Content-Length" "0";
           header_line "Access-Control-Allow-Origin" "*";
           header_line "Access-Control-Allow-Methods" "GET";
           header_line "Cache-Control" "no-store, no-cache, must-revalidate";
           blank_line]].
Proof.
  intros Hc Hv Hdir Hsl. rewrite reply_to_answer.
  cbn [answer_of request_of]. rewrite (ver_true r Hv).
  unfold head_answer. unfold resolved in Hdir. rewrite Hdir, Hsl.
  cbn [negb]. cbv iota.
  destruct Hc as [Hc|Hc]; rewrite Hc; reflexivity.
Qed.

Lemma directory_without_slash_is_redirected_witness :
  map (header_values "Location")
      (heads (reply_to simple_server_py Demo.host Examples.tree
                "/srv/www/simple-server.py" (Demo.boot ∅)
                (Demo.GET "/assets?v=2")))
  = [["/assets/?v=2"]].
Proof.
  rewrite (directory_without_slash_is_redirected simple_server_py Demo.host
             Examples.tree "/srv/www/simple-server.py" (Demo.boot ∅)
             (Demo.request "GET" "/assets?v=2"));
    [reflexivity | by left | discriminate | reflexivity..].
Defined.

(** X15.  A GET request (not HTTP/0.9, not a conditional request the file
    satisfies) whose path resolves to a directory, and whose URL path ends
    in a slash, is answered with the file [index.html] of that directory
    when it is a readable regular file: status 200, the Content-type the
    class guesses for [index.html], its length and date, the three fields
    of [end_headers], and its content. *)
Theorem directory_index_is_served s sys fs __file__ p r content st_mtime :
  request.command r = "GET" →
  request.request_version r ≠ "HTTP/0.9" →
  isdir fs (resolved (cwd p) __file__ r) = true →
  Str.endswith (urllib.path (urlsplit sys (request.path r))) "/" = true →
  fs (posixpath.join (resolved (cwd p) __file__ r) "index.html")
  = RegularFile true content st_mtime →
  not_modified r st_mtime = false →
  reply_to s sys fs __file__ p (parsed r)
  = head [status_line "HTTP/1.0" 200 "OK";
          header_line "Server" (version_string sys);
          header_line "Date" (date_time_string sys None);
          header_line "Content-type"
            (content_type s p
               (posixpath.join (resolved (cwd p) __file__ r) "index.html"));
          header_line "Content-Length" (Str.of_nat (String.length content));
          header_line "Last-Modified" (date_time_string sys (Some st_mtime));
          header_line "Access-Control-Allow-Origin" "*";
          header_line "Access-Control-Allow-Methods" "GET";
          header_line "Cache-Control" "no-store, no-cache, must-revalidate";
          blank_line]
    :: (if String.eqb content "" then [] else [data content]).
Proof.
  intros Hc Hv Hdir Hsl Hfs Hnm. rewrite reply_to_answer.
  cbn [answer_of request_of]. rewrite Hc, (ver_true r Hv).
  change (String.eqb "GET" "GET") with true. cbv beta iota.
  unfold head_answer. unfold resolved in *. rewrite Hdir, Hsl.
  cbn [negb List.find]. cbv iota zeta.
  assert (Hfile : isfile fs
            (posixpath.join
               (SimpleHTTPRequestHandler.translate_path
                  (base_directory (cwd p) __file__) (request.path r))
               "index.html") = true)
    by (unfold isfile; by rewrite Hfs).
  rewrite !Hfile.
  assert (Hend : Str.endswith
            (posixpath.join
               (SimpleHTTPRequestHandler.translate_path
                  (base_directory (cwd p) __file__) (request.path r))
               "index.html") "/" = false).
  { destruct (join_relative
                (SimpleHTTPRequestHandler.translate_path
                   (base_directory (cwd p) __file__) (request.path r))
                "index.html" eq_refl) as (pre & ->).
    by rewrite endswith_longer by (cbn; lia). }
  erewrite file_answer_readable by done. rewrite Hnm. reflexivity.
Qed.

Lemma directory_index_is_served_witness :
  bodies (reply_to server_py Demo.host Demo.tree "/srv/www/server.py"
            (Demo.boot ∅) (Demo.GET "/"))
  = ["<html></html>"].
Proof.
  rewrite (directory_index_is_served server_py Demo.host Demo.tree
             "/srv/www/server.py" (Demo.boot ∅) (Demo.request "GET" "/")
             "<html></html>" 1000);
    [reflexivity | reflexivity | discriminate | reflexivity..].
Defined.

(** ** From the request path to the file *)

Lemma contains_append c s t :
  Str.contains c (s +:+ t) = Str.contains c s || Str.contains c t.
Proof.
  induction s as [|a s IH]; [by rewrite append_nil|].
  rewrite append_cons. cbn [Str.contains]. by rewrite IH, orb_assoc.
Qed.

Lemma before_append c s t :
  Str.contains c s = false → Str.before c (s +:+ t) = s +:+ Str.before c t.
Proof.
  induction s as [|a s IH]; intros H; [by rewrite !append_nil|].
  rewrite !append_cons. cbn [Str.contains Str.before] in *.
  apply orb_false_elim in H as [-> H]. by rewrite IH.
Qed.

Lemma before_query path rest :
  Str.contains "?" path = false → Str.contains "#" path = false →
  Str.before "#" (Str.before "?" (path +:+ "?" +:+ rest)) = path
  ∧ Str.before "#" (Str.before "?" (path +:+ "#" +:+ rest)) = path.
Proof.
  intros Hq Hf. split.
  - rewrite before_append by done. rewrite append_cons.
    cbn [Str.before]. change (Str.chr_eqb "?" "?") with true. cbv iota.
    rewrite append_empty. by apply before_absent.
  - rewrite before_append by done. rewrite append_cons, append_nil.
    cbn [Str.before]. change (Str.chr_eqb "#" "?") with false. cbv iota.
    rewrite before_append by done.
    cbn [Str.before]. change (Str.chr_eqb "#" "#") with true. cbv iota.
    apply append_empty.
Qed.

Lemma translate_path_query d path rest :
  Str.contains "?" path = false → Str.contains "#" path = false →
  SimpleHTTPRequestHandler.translate_path d (path +:+ "?" +:+ rest)
  = SimpleHTTPRequestHandler.translate_path d path
  ∧ SimpleHTTPRequestHandler.translate_path d (path +:+ "#" +:+ rest)
    = SimpleHTTPRequestHandler.translate_path d path.
Proof.
  intros Hq Hf. destruct (before_query path rest Hq Hf) as [H1 H2].
  unfold SimpleHTTPRequestHandler.translate_path. cbv zeta.
  rewrite H1, H2.
  by rewrite (before_absent "?" path Hq), (before_absent "#" path Hf).
Qed.

(** X16.  The query string and the fragment of a request URL play no part
    in choosing the file: a path followed by [?...] or by [#...] resolves
    to the same file path as the path alone.  When that is no directory,
    the reply is the reply to the path alone, headers and data. *)
Theorem query_and_fragment_are_ignored s sys fs __file__ p r path rest :
  Str.contains "?" path = false →
  Str.contains "#" path = false →
  (resolved (cwd p) __file__ (with_path (path +:+ "?" +:+ rest) r)
   = resolved (cwd p) __file__ (with_path path r)
   ∧ resolved (cwd p) __file__ (with_path (path +:+ "#" +:+ rest) r)
     = resolved (cwd p) __file__ (with_path path r))
  ∧ (isdir fs (resolved (cwd p) __file__ (with_path path r)) = false →
     reply_to s sys fs __file__ p (parsed (with_path (path +:+ "?" +:+ rest) r))
     = reply_to s sys fs __file__ p (parsed (with_path path r))
     ∧ reply_to s sys fs __file__ p (parsed (with_path (path +:+ "#" +:+ rest) r))
       = reply_to s sys fs __file__ p (parsed (with_path path r))).
Proof.
  intros Hq Hf.
  destruct (translate_path_query (base_directory (cwd p) __file__) path rest Hq Hf)
    as [H1 H2].
  split; [by split|]. unfold resolved. cbn [with_path request.path].
  intros Hdir. rewrite !reply_to_answer. cbn [answer_of request_of].
  unfold head_answer. cbn [with_path request.path request.command].
  rewrite H1, H2, Hdir. by split.
Qed.

Lemma query_and_fragment_are_ignored_witness :
  reply_to simple_server_py Demo.host Demo.tree "/srv/www/simple-server.py"
    (Demo.boot ∅)
    (parsed (with_path ("/app.js" +:+ "?" +:+ "v=3") (Demo.request "GET" "/")))
  = reply_to simple_server_py Demo.host Demo.tree "/srv/www/simple-server.py"
      (Demo.boot ∅) (parsed (with_path "/app.js" (Demo.request "GET" "/"))).
Proof.
  apply (query_and_fragment_are_ignored simple_server_py Demo.host Demo.tree
           "/srv/www/simple-server.py" (Demo.boot ∅) (Demo.request "GET" "/")
           "/app.js" "v=3"); reflexivity.
Defined.

Lemma unquote_absent s : Str.contains "%" s = false → urllib.unquote s = s.
Proof.
  induction s as [|a s IH]; [done|]. cbn [Str.contains urllib.unquote].
  intros [Ha Hs]%orb_false_elim. rewrite Ha. by rewrite IH.
Qed.

Lemma split_sep c w rest :
  Str.contains c w = false →
  Str.split c (w +:+ String c rest) = w :: Str.split c rest.
Proof.
  induction w as [|a w IH]; intros H.
  - rewrite append_nil. cbn [Str.split]. unfold Str.chr_eqb.
    by rewrite Ascii.eqb_refl.
  - rewrite append_cons. cbn [Str.contains Str.split] in *.
    apply orb_false_elim in H as [-> H]. by rewrite IH.
Qed.

Lemma split_join ws :
  ws ≠ [] → Forall simple_name ws → Str.split "/" (Str.join "/" ws) = ws.
Proof.
  intros Hne Hws. induction Hws as [|w ws (_ & _ & _ & Hw) Hws IH]; [done|].
  destruct ws as [|w' ws].
  - cbn [Str.join]. by apply split_absent.
  - change (Str.join "/" (w :: w' :: ws))
      with (w +:+ "/" +:+ Str.join "/" (w' :: ws)).
    rewrite append_cons, append_nil, split_sep by done.
    by rewrite IH.
Qed.

Lemma normpath_comps_simple n ws acc :
  Forall simple_name ws → posixpath.normpath_comps n ws acc = rev ws ++ acc.
Proof.
  intros Hws. revert acc.
  induction Hws as [|w ws (H1 & H2 & H3 & _) _ IH]; intros acc; [done|].
  cbn [posixpath.normpath_comps]. unfold posixpath.curdir, posixpath.pardir.
  rewrite (proj2 (String.eqb_neq _ _) H1), (proj2 (String.eqb_neq _ _) H2),
    (proj2 (String.eqb_neq _ _) H3).
  cbn [orb negb]. rewrite IH. cbn [rev]. by rewrite <- app_assoc.
Qed.

Lemma filter_simple ws :
  Forall simple_name ws → filter (λ word : string, word ≠ "") ws = ws.
Proof.
  induction 1 as [|w ws (H1 & _) _ IH]; [done|].
  by rewrite filter_cons, decide_True, IH.
Qed.

Lemma foldl_simple d ws :
  Forall simple_name ws →
  foldl (λ path word : string,
           if negb (String.eqb (posixpath.dirname word) "")
              || String.eqb word posixpath.curdir
              || String.eqb word posixpath.pardir
           then path
           else posixpath.join path word) d ws
  = foldl posixpath.join d ws.
Proof.
  intros Hws. revert d.
  induction Hws as [|w ws (H1 & H2 & H3 & H4) _ IH]; intros d; [done|].
  cbn [foldl]. rewrite dirname_name by done.
  unfold posixpath.curdir, posixpath.pardir.
  rewrite (proj2 (String.eqb_neq _ _) H2), (proj2 (String.eqb_neq _ _) H3).
  cbn [String.eqb negb orb]. apply IH.
Qed.

Lemma contains_join c ws :
  Str.chr_eqb "/" c = false →
  Forall (λ w, Str.contains c w = false) ws →
  Str.contains c (Str.join "/" ws) = false.
Proof.
  intros Hc Hws. induction Hws as [|w ws Hw Hws IH]; [done|].
  destruct ws as [|w' ws]; [done|].
  change (Str.join "/" (w :: w' :: ws))
    with (w +:+ "/" +:+ Str.join "/" (w' :: ws)).
  rewrite !contains_append, Hw, IH. cbn [Str.contains]. by rewrite Hc.
Qed.

Lemma lstrip_suffix u : ∃ t, u = t +:+ Str.lstrip u.
Proof.
  induction u as [|c u (t & Hu)]; [by exists ""|].
  cbn [Str.lstrip]. destruct (Str.isspace c).
  - exists (String c t). by rewrite append_cons, <- Hu.
  - by exists "".
Qed.

Lemma lstrip_append u x :
  Str.lstrip u ≠ "" → Str.lstrip (u +:+ x) = Str.lstrip u +:+ x.
Proof.
  induction u as [|c u IH]; [done|]. rewrite append_cons.
  cbn [Str.lstrip]. destruct (Str.isspace c); [exact IH|].
  intros _. by rewrite append_cons.
Qed.

Lemma rev_append a b :
  Str.rev_onto (a +:+ b) "" = Str.rev_onto b "" +:+ Str.rev_onto a "".
Proof. by rewrite rev_onto_append, rev_onto_acc. Qed.

(** [rstrip] removes characters from the end only. *)
Lemma rstrip_prefix s : ∃ t, s = Str.rstrip s +:+ t.
Proof.
  destruct (lstrip_suffix (Str.rev_onto s "")) as (t & Hs).
  exists (Str.rev_onto t ""). unfold Str.rstrip.
  by rewrite <- rev_append, <- Hs, rev_onto_involutive.
Qed.

Lemma rstrip_append pre w :
  Str.rstrip w ≠ "" → Str.rstrip (pre +:+ w) = pre +:+ Str.rstrip w.
Proof.
  intros H. unfold Str.rstrip in *. rewrite rev_append.
  rewrite lstrip_append by (by intros E; rewrite E in H).
  by rewrite rev_append, rev_onto_involutive.
Qed.

Lemma endswith_no_sep t :
  Str.contains "/" t = false → Str.endswith t "/" = false.
Proof.
  induction t as [|a t IH]; [done|]. cbn [Str.contains Str.endswith].
  intros [Ha Ht]%orb_false_elim. rewrite IH by done.
  unfold Str.chr_eqb in Ha. cbn [String.eqb]. rewrite Ha. done.
Qed.

Lemma plain_path_no_slash pre w :
  Str.contains "/" w = false → Str.rstrip w ≠ "" →
  Str.endswith (Str.rstrip (pre +:+ w)) "/" = false.
Proof.
  intros Hw Hr. rewrite rstrip_append by done.
  destruct (rstrip_prefix w) as (t & Ht).
  assert (Hc : Str.contains "/" (Str.rstrip w) = false).
  { rewrite Ht, contains_append in Hw. by apply orb_false_elim in Hw as [? _]. }
  destruct (Str.rstrip w) as [|a u] eqn:E; [done|].
  rewrite endswith_longer by (cbn; lia). by apply endswith_no_sep.
Qed.

Lemma join_relative_start w x :
  simple_name w → Str.startswith (w +:+ x) "/" = false.
Proof.
  intros (H1 & _ & _ & H4). destruct w as [|a w]; [done|].
  rewrite append_cons. cbn [Str.contains] in H4.
  apply orb_false_elim in H4 as [Ha _].
  cbn [Str.startswith]. by rewrite Ha.
Qed.

Lemma join_plain_relative ws :
  ws ≠ [] → Forall simple_name ws →
  Str.startswith (Str.join "/" ws) "/" = false.
Proof.
  intros Hne Hws. destruct Hws as [|w ws Hw Hws]; [done|].
  destruct ws as [|w' ws].
  - cbn [Str.join]. rewrite <- (append_empty w). by apply join_relative_start.
  - change (Str.join "/" (w :: w' :: ws))
      with (w +:+ "/" +:+ Str.join "/" (w' :: ws)).
    by apply join_relative_start.
Qed.

Lemma normpath_plain ws :
  ws ≠ [] → Forall simple_name ws →
  posixpath.normpath ("/" +:+ Str.join "/" ws) = "/" +:+ Str.join "/" ws.
Proof.
  intros Hne Hws. unfold posixpath.normpath.
  rewrite append_cons, append_nil.
  change (String.eqb (String "/" ?x) "") with false. cbv iota.
  rewrite startswith_cons_slash.
  assert (Str.startswith (String "/" (Str.join "/" ws)) "//" = false) as ->.
  { cbn [Str.startswith]. change (Str.chr_eqb "/" "/") with true.
    cbn [andb]. pose proof (join_plain_relative ws Hne Hws) as H.
    destruct (Str.join "/" ws); [done|]. cbn [Str.startswith] in *.
    by destruct (Str.chr_eqb _ _). }
  cbn [andb]. cbv iota zeta.
  unfold posixpath.sep. cbn [Str.split].
  change (Str.chr_eqb "/" "/") with true. cbv iota.
  rewrite split_join by done.
  cbn [posixpath.normpath_comps String.eqb orb].
  rewrite normpath_comps_simple, app_nil_r, rev_involutive by done.
  by rewrite append_cons, append_nil.
Qed.

Lemma plain_simple ws : Forall plain_name ws → Forall simple_name ws.
Proof. intros H. eapply Forall_impl; [exact H|]. by intros w [? _]. Qed.

(** X17.  The request path made of plain names, [/w1/.../wn], resolves to
    the directory served followed by these names: each name is joined to
    what precedes it, none is dropped and nothing else is added. *)
Theorem plain_path_resolves d ws :
  ws ≠ [] →
  Forall plain_name ws →
  SimpleHTTPRequestHandler.translate_path d ("/" +:+ Str.join "/" ws)
  = foldl posixpath.join d ws.
Proof.
  intros Hne Hws. pose proof (plain_simple ws Hws) as Hs.
  assert (Hc : ∀ c, Str.chr_eqb "/" c = false →
               Forall (λ w, Str.contains c w = false) ws →
               Str.contains c ("/" +:+ Str.join "/" ws) = false).
  { intros c Hc H. rewrite contains_append, (contains_join c ws Hc H).
    cbn [Str.contains]. by rewrite Hc. }
  unfold SimpleHTTPRequestHandler.translate_path. cbv zeta.
  rewrite (before_absent "?" ("/" +:+ Str.join "/" ws))
    by (apply Hc; [done|]; eapply Forall_impl; [exact Hws|]; by intros w (_&_&?&_)).
  rewrite (before_absent "#" ("/" +:+ Str.join "/" ws))
    by (apply Hc; [done|]; eapply Forall_impl; [exact Hws|]; by intros w (_&_&_&?&_)).
  rewrite unquote_absent
    by (apply Hc; [done|]; eapply Forall_impl; [exact Hws|]; by intros w (_&?&_)).
  assert (Str.endswith (Str.rstrip ("/" +:+ Str.join "/" ws)) "/" = false) as ->.
  { destruct (last ws) as [w|] eqn:E; [|by apply last_None in E].
    apply last_Some in E as (l & ->).
    destruct (join_snoc "/" l w) as (pre & ->).
    apply Forall_app in Hws as [_ Hw]. apply Forall_inv in Hw.
    destruct Hw as ((_ & _ & _ & Hw) & _ & _ & _ & Hr).
    rewrite <- append_assoc. by apply plain_path_no_slash. }
  rewrite normpath_plain by done.
  rewrite append_cons, append_nil. cbn [Str.split].
  change (Str.chr_eqb "/" "/") with true. cbv iota.
  rewrite split_join by done.
  rewrite filter_cons, decide_False by (by intros H; apply H).
  rewrite filter_simple by done.
  by apply foldl_simple.
Qed.

Lemma plain_path_resolves_witness :
  SimpleHTTPRequestHandler.translate_path "/srv/www" "/assets/logo.svg"
  = "/srv/www/assets/logo.svg".
Proof.
  apply (plain_path_resolves "/srv/www" ["assets"; "logo.svg"]); [done|].
  repeat constructor; try discriminate.
Defined.
